(** * Study hall management server: fee ledger and billing rules

    A shallow embedding of [server.js].  The server is an Express
    application whose handlers run SQL statements against two SQLite
    tables, [students] and [study_halls].  A table is a list of rows in
    rowid order, a handler is a function from the request and the database
    to the new database and the JSON reply, and every SQL statement is
    written out as the list operation it performs. *)

From Stdlib Require Import ZArith List String Ascii Bool Lia.
From Stdlib Require Import Sorted Permutation DecimalString.
From Stdlib Require OrdersEx DecimalPos.
Import ListNotations.

Local Open Scope Z_scope.

(** ** Decimal digits

    Both the JavaScript runtime (dates in ISO form) and SQLite (the result
    of [date]) print numbers in a fixed number of decimal digits. *)

Module Digits.

Definition code (c : ascii) : Z := Z.of_N (N_of_ascii c).

Definition digit_char (n : Z) : ascii := ascii_of_N (Z.to_N (48 + n)).

Definition pad2 (n : Z) : string :=
  String (digit_char (n / 10)) (String (digit_char (n mod 10)) EmptyString).

Definition pad4 (n : Z) : string :=
  (pad2 (n / 100) ++ pad2 (n mod 100))%string.

Definition pad6 (n : Z) : string :=
  (pad2 (n / 10000) ++ pad4 (n mod 10000))%string.

End Digits.

(** ** JavaScript values of a request body *)

Module JS.
Import Digits.

(** The values [express.json()] can put in a field of [req.body].  A
    number is modelled when it is an integer (amounts are integers). *)
Inductive jsval : Type :=
| JUndefined
| JNull
| JBool (b : bool)
| JNum (n : Z)
| JStr (s : string).

(** White space that [parseInt] skips: the members of StrWhiteSpaceChar.
    A string is the sequence of its UTF-8 bytes, so the blanks beyond
    ASCII take two or three bytes. *)
Definition is_space (c : ascii) : bool :=
  let n := code c in
  (n =? 32) || ((9 <=? n) && (n <=? 13)).

(** U+00A0 *)
Definition is_space2 (c1 c2 : ascii) : bool :=
  (code c1 =? 194) && (code c2 =? 160).

(** U+1680, U+2000 to U+200A, U+2028, U+2029, U+202F, U+205F, U+3000 and
    U+FEFF *)
Definition is_space3 (c1 c2 c3 : ascii) : bool :=
  let a := code c1 in
  let b := code c2 in
  let c := code c3 in
  ((a =? 225) && (b =? 154) && (c =? 128))
  || ((a =? 226) && (b =? 128)
      && (((128 <=? c) && (c <=? 138)) || (c =? 168) || (c =? 169)
          || (c =? 175)))
  || ((a =? 226) && (b =? 129) && (c =? 159))
  || ((a =? 227) && (b =? 128) && (c =? 128))
  || ((a =? 239) && (b =? 187) && (c =? 191)).

Fixpoint skip_spaces (s : string) : string :=
  match s with
  | String c1 r1 =>
      if is_space c1 then skip_spaces r1
      else
        match r1 with
        | String c2 r2 =>
            if is_space2 c1 c2 then skip_spaces r2
            else
              match r2 with
              | String c3 r3 =>
                  if is_space3 c1 c2 c3 then skip_spaces r3 else s
              | EmptyString => s
              end
        | EmptyString => s
        end
  | EmptyString => s
  end.

(** Value of a character as a digit of the given radix. *)
Definition digit_value (radix : Z) (c : ascii) : option Z :=
  let n := code c in
  let v := if (48 <=? n) && (n <=? 57) then n - 48
           else if (97 <=? n) && (n <=? 122) then n - 87
           else if (65 <=? n) && (n <=? 90) then n - 55
           else 36 in
  if v <? radix then Some v else None.

(** The number denoted by the longest prefix of digits. *)
Fixpoint parse_digits (radix acc : Z) (s : string) : Z :=
  match s with
  | String c r =>
      match digit_value radix c with
      | Some d => parse_digits radix (acc * radix + d) r
      | None => acc
      end
  | EmptyString => acc
  end.

Definition strip_sign (s : string) : Z * string :=
  match s with
  | String c r =>
      if Ascii.eqb c "-" then (-1, r)
      else if Ascii.eqb c "+" then (1, r)
      else (1, s)
  | EmptyString => (1, s)
  end.

Definition strip_radix (s : string) : Z * string :=
  match s with
  | String c0 (String c1 r) =>
      if Ascii.eqb c0 "0" && (Ascii.eqb c1 "x" || Ascii.eqb c1 "X")
      then (16, r) else (10, s)
  | _ => (10, s)
  end.

(** The Number that an integer is converted to: the nearest one with 53
    significant bits, a tie going to the even neighbour.  The integers up
    to 2^53 are kept as they are.  (Beyond the largest Number, near
    2^1024, the conversion gives Infinity; amounts are integers here and
    that range is left as it is.) *)
Definition to_double (n : Z) : Z :=
  let a := Z.abs n in
  let e := Z.log2 a - 52 in
  if e <=? 0 then n
  else
    let q := a / 2 ^ e in
    let r := a mod 2 ^ e in
    let h := 2 ^ (e - 1) in
    let q' := if (h <? r) || ((r =? h) && Z.odd q) then q + 1 else q in
    Z.sgn n * (q' * 2 ^ e).

(** The integers within the range of the finite Numbers. *)
Definition finite (z : Z) : bool := Z.abs z <? 2 ^ 1024.

(** [parseInt(s)] on a string, [None] standing for [NaN]. *)
Definition parseInt_string (s : string) : option Z :=
  let '(sign, s1) := strip_sign (skip_spaces s) in
  let '(radix, s2) := strip_radix s1 in
  match s2 with
  | String c _ =>
      match digit_value radix c with
      | Some _ => Some (to_double (sign * parse_digits radix 0 s2))
      | None => None
      end
  | EmptyString => None
  end.

(** Decimal notation of an integer, as [String(n)] prints it. *)
Definition string_of_Z (n : Z) : string :=
  NilZero.string_of_int (Z.to_int n).

(** [String(x)] prints a Number of 10^21 or more in exponent notation,
    from the shortest decimal that reads back as [x]; [parseInt] then
    reads the digit before the point or the exponent.  [first_digit a p
    fuel] is that digit: it tries the decimals of one digit, two digits
    and so on ([p] is the power of ten of the last digit kept), and at
    each length the two multiples of [p] around [a]. *)
Fixpoint first_digit (a top p : Z) (fuel : nat) : Z :=
  let lo := a / p * p in
  let hi := lo + p in
  let lead c := if c =? 10 * top then 1 else c / top in
  match fuel with
  | O => a / top
  | S fuel' =>
      if to_double lo =? a then lead lo
      else if to_double hi =? a then lead hi
      else first_digit a top (p / 10) fuel'
  end.

(** [parseInt(x)] on a Number whose value is the integer [x]. *)
Definition parseInt_number (x : Z) : Z :=
  let a := Z.abs x in
  if a <? 10 ^ 21 then x
  else
    let top := 10 ^ (Z.of_nat (String.length (string_of_Z a)) - 1) in
    Z.sgn x * first_digit a top top 17.

(** [parseInt(v)]: the argument is first converted to a string.
    [undefined], [null], [true] and [false] become words that start with
    no digit; a number below 10^21 becomes its decimal notation, which
    [parseInt] reads back, and a larger one its exponent notation.
    [JNum n] stands for the number written [n] in the JSON text of the
    request, which is the Number nearest to [n]; beyond the largest
    Number it is [Infinity], a word again. *)
Definition parseInt (v : jsval) : option Z :=
  match v with
  | JStr s => parseInt_string s
  | JNum n =>
      let x := to_double n in
      if finite x then Some (parseInt_number x) else None
  | JUndefined | JNull | JBool _ => None
  end.

(** The integers that every Number operation keeps exact
    ([Number.isSafeInteger]). *)
Definition safe_integer (z : Z) : bool := Z.abs z <? 2 ^ 53.

(** [parseInt(v) === 0] *)
Definition parseInt_is_zero (v : jsval) : bool :=
  match parseInt v with
  | Some z => z =? 0
  | None => false
  end.

(** [parseInt(v) || 0]: [NaN] and [0] are falsy. *)
Definition parseInt_or_0 (v : jsval) : Z :=
  match parseInt v with
  | Some z => z
  | None => 0
  end.

Definition is_undefined (v : jsval) : bool :=
  match v with
  | JUndefined => true
  | _ => false
  end.

(** A text field of the body is absent or a string; the empty string is
    falsy. *)
Definition truthy (t : option string) : bool :=
  match t with
  | Some s => negb (String.eqb s "")
  | None => false
  end.

(** [t || dflt] *)
Definition or_else (t : option string) (dflt : string) : string :=
  match t with
  | Some s => if String.eqb s "" then dflt else s
  | None => dflt
  end.

(** [t || null] *)
Definition or_null (t : option string) : option string :=
  match t with
  | Some s => if String.eqb s "" then None else Some s
  | None => None
  end.

(** [String(x)] for the number [x = t / 10], a decimal with at most one
    fractional digit: no fractional part is printed when it is zero. *)
Definition string_of_tenths (t : Z) : string :=
  let a := Z.abs t in
  let sign := if t <? 0 then "-"%string else ""%string in
  if a mod 10 =? 0
  then (sign ++ string_of_Z (a / 10))%string
  else (sign ++ string_of_Z (a / 10) ++ "." ++ string_of_Z (a mod 10))%string.

(** [date.toISOString().split('T')[0]] for the UTC calendar date [y]-[m]-[d]:
    four digits for the years 0 to 9999, a sign and six digits otherwise. *)
Definition toISODate (y m d : Z) : string :=
  let year := if (0 <=? y) && (y <=? 9999) then pad4 y
              else if y <? 0 then ("-" ++ pad6 (- y))%string
              else ("+" ++ pad6 y)%string in
  (year ++ "-" ++ pad2 m ++ "-" ++ pad2 d)%string.

End JS.

(** ** The fragment of SQLite the statements use *)

Module SQLite.
Import Digits.

(** A nullable column is an [option]; a condition evaluates to true,
    false or NULL (unknown), and a WHERE clause keeps a row only when its
    condition is true. *)
Definition is_null {A : Type} (v : option A) : bool :=
  match v with
  | None => true
  | Some _ => false
  end.

Definition sql_and (a b : option bool) : option bool :=
  match a, b with
  | Some false, _ => Some false
  | _, Some false => Some false
  | Some true, Some true => Some true
  | _, _ => None
  end.

Definition sql_or (a b : option bool) : option bool :=
  match a, b with
  | Some true, _ => Some true
  | _, Some true => Some true
  | Some false, Some false => Some false
  | _, _ => None
  end.

Definition holds (c : option bool) : bool :=
  match c with
  | Some true => true
  | _ => false
  end.

(** Comparison of two TEXT values under the BINARY collation: byte by
    byte, a proper prefix sorting first. *)
Definition text_lt (a b : option string) : option bool :=
  match a, b with
  | Some x, Some y => Some (String.ltb x y)
  | _, _ => None
  end.

Definition text_eq (a b : option string) : option bool :=
  match a, b with
  | Some x, Some y => Some (String.eqb x y)
  | _, _ => None
  end.

Definition text_ne (a b : option string) : option bool :=
  match a, b with
  | Some x, Some y => Some (negb (String.eqb x y))
  | _, _ => None
  end.

(** ORDER BY ... ASC on a nullable TEXT key: NULL sorts first. *)
Definition order_le (a b : option string) : bool :=
  match a, b with
  | None, _ => true
  | Some _, None => false
  | Some x, Some y => String.leb x y
  end.

(** *** Calendar dates: [date(X, '+N month')] *)

Definition digit (c : ascii) : option Z :=
  let n := code c in
  if (48 <=? n) && (n <=? 57) then Some (n - 48) else None.

Definition digits2 (a b : ascii) : option Z :=
  match digit a, digit b with
  | Some x, Some y => Some (10 * x + y)
  | _, _ => None
  end.

(** A time value of the form YYYY-MM-DD: four digits, a month from 01 to
    12 and a day from 01 to 31 (the day is not checked against the
    month).  The other formats that SQLite reads (a time part, a Julian
    day number, 'now') are never passed by the server and are mapped to
    NULL here. *)
Definition parseYyyyMmDd (s : string) : option (Z * Z * Z) :=
  match s with
  | String y1 (String y2 (String y3 (String y4 (String h1
    (String m1 (String m2 (String h2
    (String d1 (String d2 EmptyString))))))))) =>
      match digits2 y1 y2, digits2 y3 y4, digits2 m1 m2, digits2 d1 d2 with
      | Some yh, Some yl, Some m, Some d =>
          if Ascii.eqb h1 "-" && Ascii.eqb h2 "-"
             && (1 <=? m) && (m <=? 12) && (1 <=? d) && (d <=? 31)
          then Some (100 * yh + yl, m, d)
          else None
      | _, _, _, _ => None
      end
  | _ => None
  end.

(** The 'N month' modifier: the month number is moved and brought back
    into 1..12 by carrying whole years (C division truncates). *)
Definition add_months (k : Z) (ymd : Z * Z * Z) : Z * Z * Z :=
  let '(y, m, d) := ymd in
  let m' := m + k in
  let x := if 0 <? m' then Z.quot (m' - 1) 12 else Z.quot (m' - 12) 12 in
  (y + x, m' - x * 12, d).

Definition is_leap (y : Z) : bool :=
  ((y mod 4 =? 0) && negb (y mod 100 =? 0)) || (y mod 400 =? 0).

Definition days_in_month (y m : Z) : Z :=
  if m =? 2 then (if is_leap y then 29 else 28)
  else if (m =? 4) || (m =? 6) || (m =? 9) || (m =? 11) then 30
  else 31.

(** SQLite turns the year, month and day into a Julian day number and
    back, so a day past the end of its month runs over into the next
    month (February 31st is March 2nd or 3rd).  The day is at most 31 and
    a month has at least 28 days, so the overflow stops in the next
    month, and December never overflows. *)
Definition normalize (ymd : Z * Z * Z) : Z * Z * Z :=
  let '(y, m, d) := ymd in
  let n := days_in_month y m in
  if d <=? n then (y, m, d) else (y, m + 1, d - n).

(** The result is printed as YYYY-MM-DD. *)
Definition render_date (ymd : Z * Z * Z) : string :=
  let '(y, m, d) := ymd in
  (pad4 y ++ "-" ++ pad2 m ++ "-" ++ pad2 d)%string.

(** [date(X, 'k month')].  The result is NULL when [X] is NULL or is not
    a date, and outside the years 0000 to 9999, the range for which
    SQLite defines the function. *)
Definition date (timevalue : option string) (k : Z) : option string :=
  match timevalue with
  | None => None
  | Some s =>
      match parseYyyyMmDd s with
      | None => None
      | Some ymd =>
          let '(y, m, d) := normalize (add_months k ymd) in
          if (0 <=? y) && (y <=? 9999) then Some (render_date (y, m, d))
          else None
      end
  end.

(** *** [ROUND(n * 100.0 / d, 1)]

    The product with [100.0] and the quotient are computed on REAL
    values, binary floating-point numbers of 53 significant bits: an
    integer operand is converted first (the conversion is the one of
    [JS.to_double]) and every result is rounded to the nearest such
    number, a tie going to the even neighbour. *)

(** [x * 2^k] for [k >= 0], and [x] otherwise. *)
Definition scale (x k : Z) : Z := x * 2 ^ Z.max 0 k.

(** The quotient of two positive integers, to 53 significant bits: the
    pair [(m, e)] stands for [m * 2^e].  The exponent is chosen so that
    [p / (q * 2^e)] lies between 2^52 and 2^53. *)
Definition fdiv (p q : Z) : Z * Z :=
  let l := Z.log2 p - Z.log2 q in
  let f := if scale p (- l) <? scale q l then l - 1 else l in
  let e := f - 52 in
  let num := scale p (- e) in
  let den := scale q e in
  let m := num / den in
  let r := num mod den in
  let m' := if (den <? 2 * r) || ((2 * r =? den) && Z.odd m)
            then m + 1 else m in
  (m', e).

(** ROUND with one fractional digit prints the value with one digit after
    the point and reads the text back.  The result is kept as a whole
    number of tenths: the one nearest to the value [m * 2^e], the upper
    one when the value lies half way.  (SQLite before 3.43 adds 0.05 and
    cuts the digits off, which can give the other neighbour when the
    exact quotient lies half way between two tenths.) *)
Definition round_tenths (x : Z * Z) : Z :=
  let '(m, e) := x in
  let num := scale (10 * m) e in
  let den := scale 1 (- e) in
  (2 * num + den) / (2 * den).

(** The rate in tenths of a percent; the sign is the one of the
    quotient. *)
Definition round_percent_tenths (n d : Z) : Z :=
  if n =? 0 then 0
  else
    Z.sgn n * Z.sgn d
    * round_tenths (fdiv (JS.to_double (JS.to_double (Z.abs n) * 100))
                         (JS.to_double (Z.abs d))).

End SQLite.


(** ** The server: tables and request handlers *)

Module Server.
Import JS SQLite.

(** A row of [students].  The fee columns are integers: every INSERT and
    UPDATE of the server binds [parseInt(..) || 0] to them.  The date
    columns hold NULL or the text that was bound (a date is not a number,
    so it keeps the TEXT storage class in a column declared DATE). *)
Record student : Type := mkStudent {
  id : Z;
  name : string;
  cabin : string;
  hall : string;
  phone : string;
  fee_paid : Z;
  fee_due : Z;
  status : string;
  join_date : option string;
  left_date : option string;
  monthly_fee : Z;
  last_fee_calculated_date : option string;
  created_at : string
}.

(** A row of [study_halls]. *)
Record study_hall : Type := mkHall {
  sh_id : Z;
  sh_name : string;
  capacity : Z;
  location : string;
  description : string;
  sh_created_at : string
}.

(** The database behind the global [db]; [students_seq] is the largest
    rowid AUTOINCREMENT has handed out for [students]. *)
Record database : Type := mkDb {
  students : list student;
  study_halls : list study_hall;
  students_seq : Z
}.

(** What a handler sends: [res.json(body)], or
    [res.status(code).json({ error })]. *)
Inductive reply (A : Type) : Type :=
| Json (body : A)
| Error (code : Z) (error : string).
Arguments Json {A} body.
Arguments Error {A} code error.

(** [UPDATE t SET .. WHERE ..]: the SET expressions read the row as it
    was; [this.changes] is the number of rows the WHERE clause kept. *)
Definition sql_update {R : Type} (where_ : R -> bool) (set : R -> R)
    (rows : list R) : list R * Z :=
  (map (fun r => if where_ r then set r else r) rows,
   Z.of_nat (List.length (filter where_ rows))).

(** [DELETE FROM t WHERE ..] *)
Definition sql_delete {R : Type} (where_ : R -> bool) (rows : list R)
    : list R * Z :=
  (filter (fun r => negb (where_ r)) rows,
   Z.of_nat (List.length (filter where_ rows))).

(** [SELECT COUNT( * ) FROM t WHERE ..] *)
Definition sql_count {R : Type} (where_ : R -> bool) (rows : list R) : Z :=
  Z.of_nat (List.length (filter where_ rows)).

(** [COALESCE(SUM(e), 0)] over the rows: the sum of the integers.
    SQLite adds 64-bit integers and fails with 'integer overflow' when a
    sum leaves their range, which the route answers with the status 500;
    the statements about sums are made for ledgers whose amounts stay
    inside that range ([Spec.volume]). *)
Definition sql_sum {R : Type} (e : R -> Z) (rows : list R) : Z :=
  fold_right (fun r acc => e r + acc) 0 rows.

(** [ORDER BY key ASC]: a stable insertion sort. *)
Fixpoint insert_by {R : Type} (le : R -> R -> bool) (x : R) (l : list R)
    : list R :=
  match l with
  | [] => [x]
  | y :: r => if le x y then x :: l else y :: insert_by le x r
  end.

Definition order_by {R : Type} (le : R -> R -> bool) (l : list R) : list R :=
  fold_right (insert_by le) [] l.

(** *** Students *)

Record student_body : Type := mkBody {
  req_name : option string;
  req_cabin : option string;
  req_hall : option string;
  req_phone : option string;
  feePaid : jsval;
  feeDue : jsval;
  monthlyFee : jsval;
  joinDate : option string;
  leftDate : option string
}.

Definition text_of (t : option string) : string := or_else t "".

(** The status the two student handlers compute:
    [(parseInt(feeDue) === 0) ? 'Paid' : 'Pending'] *)
Definition status_of (feeDue : jsval) : string :=
  if parseInt_is_zero feeDue then "Paid"%string else "Pending"%string.

Definition next_student_id (db : database) : Z :=
  1 + fold_right Z.max (students_seq db) (map id (students db)).

(** POST /api/students.  [today] is
    [new Date().toISOString().split('T')[0]] and [now] the
    CURRENT_TIMESTAMP of the insertion. *)
Definition post_students (today now : string) (body : student_body)
    (db : database) : database * reply Z :=
  if negb (truthy (req_name body)) then
    (db, Error 400 "Student name is required")
  else if negb (truthy (req_cabin body)) then
    (db, Error 400 "Cabin number is required")
  else if negb (truthy (req_hall body)) then
    (db, Error 400 "Study hall is required")
  else if negb (truthy (req_phone body)) then
    (db, Error 400 "Phone number is required")
  else
    let status := status_of (feeDue body) in
    let join_date := or_else (joinDate body) today in
    let monthly_fee := parseInt_or_0 (monthlyFee body) in
    let fee_paid := parseInt_or_0 (feePaid body) in
    let fee_due := parseInt_or_0 (feeDue body) in
    let lastID := next_student_id db in
    let row :=
      {| id := lastID;
         name := text_of (req_name body);
         cabin := text_of (req_cabin body);
         hall := text_of (req_hall body);
         phone := text_of (req_phone body);
         fee_paid := fee_paid;
         fee_due := fee_due;
         status := status;
         join_date := Some join_date;
         left_date := None;
         monthly_fee := monthly_fee;
         last_fee_calculated_date := None;
         created_at := now |} in
    ({| students := students db ++ [row];
        study_halls := study_halls db;
        students_seq := lastID |},
     Json lastID).

Definition set_student (body : student_body) (s : student) : student :=
  {| id := id s;
     name := text_of (req_name body);
     cabin := text_of (req_cabin body);
     hall := text_of (req_hall body);
     phone := text_of (req_phone body);
     fee_paid := parseInt_or_0 (feePaid body);
     fee_due := parseInt_or_0 (feeDue body);
     status := status_of (feeDue body);
     join_date := joinDate body;
     left_date := or_null (leftDate body);
     monthly_fee := parseInt_or_0 (monthlyFee body);
     last_fee_calculated_date := last_fee_calculated_date s;
     created_at := created_at s |}.

Definition with_students (db : database) (rows : list student) : database :=
  {| students := rows;
     study_halls := study_halls db;
     students_seq := students_seq db |}.

(** PUT /api/students/:id.  The [:id] of the URL is a number [sid]; the
    status is computed before the fields are checked. *)
Definition put_students (sid : Z) (body : student_body) (db : database)
    : database * reply string :=
  if negb (truthy (req_name body)) || negb (truthy (req_cabin body))
     || negb (truthy (req_hall body)) || negb (truthy (req_phone body))
     || is_undefined (feePaid body) || is_undefined (feeDue body)
  then (db, Error 400 "All fields are required")
  else
    let '(rows, changes) :=
      sql_update (fun s => id s =? sid) (set_student body) (students db) in
    if changes =? 0 then (with_students db rows, Error 404 "Student not found")
    else (with_students db rows, Json "Student updated successfully"%string).

(** DELETE /api/students/:id *)
Definition delete_students (sid : Z) (db : database)
    : database * reply string :=
  let '(rows, changes) := sql_delete (fun s => id s =? sid) (students db) in
  if changes =? 0 then (with_students db rows, Error 404 "Student not found")
  else (with_students db rows, Json "Student deleted successfully"%string).

(** *** Fee management *)

(** The WHERE clause of the monthly accrual. *)
Definition accrual_where (currentDate : string) (s : student) : bool :=
  holds
    (sql_and
       (sql_and (Some (is_null (left_date s))) (Some (0 <? monthly_fee s)))
       (sql_or (Some (is_null (last_fee_calculated_date s)))
               (text_lt (last_fee_calculated_date s)
                        (date (Some currentDate) (-1))))).

(** Its SET clause. *)
Definition accrual_set (currentDate : string) (s : student) : student :=
  {| id := id s;
     name := name s;
     cabin := cabin s;
     hall := hall s;
     phone := phone s;
     fee_paid := fee_paid s;
     fee_due := fee_due s + monthly_fee s;
     status := if (0 <? monthly_fee s) && (0 <? fee_due s + monthly_fee s)
               then "Pending"%string else status s;
     join_date := join_date s;
     left_date := left_date s;
     monthly_fee := monthly_fee s;
     last_fee_calculated_date := Some currentDate;
     created_at := created_at s |}.

(** POST /api/fees/calculate-monthly; the reply carries [affected].
    [currentDate] is [new Date().toISOString().split('T')[0]]. *)
Definition calculate_monthly (currentDate : string) (db : database)
    : database * reply Z :=
  let '(rows, changes) :=
    sql_update (accrual_where currentDate) (accrual_set currentDate)
               (students db) in
  (with_students db rows, Json changes).

(** GET /api/upcoming-fees.  The columns declared DATE hold the text
    they are given when it is a date YYYY-MM-DD, which is the case
    modelled: [ORDER BY] then compares texts.  (A text that looks like a
    number would be stored, and sorted, as a number.) *)
Definition next_fee_date (s : student) : option string :=
  if is_null (last_fee_calculated_date s) then join_date s
  else date (last_fee_calculated_date s) 1.

Definition upcoming_where (s : student) : bool :=
  holds (sql_and (Some (is_null (left_date s))) (Some (0 <? monthly_fee s))).

Definition upcoming_fees (db : database) : list (student * option string) :=
  order_by (fun a b => order_le (snd a) (snd b))
    (map (fun s => (s, next_fee_date s))
         (filter upcoming_where (students db))).

Definition set_left_date (d : option string) (s : student) : student :=
  {| id := id s;
     name := name s;
     cabin := cabin s;
     hall := hall s;
     phone := phone s;
     fee_paid := fee_paid s;
     fee_due := fee_due s;
     status := status s;
     join_date := join_date s;
     left_date := d;
     monthly_fee := monthly_fee s;
     last_fee_calculated_date := last_fee_calculated_date s;
     created_at := created_at s |}.

(** PUT /api/students/:id/leave, with the body field [left_date] *)
Definition leave (today : string) (sid : Z) (req_left_date : option string)
    (db : database) : database * reply string :=
  let leaveDate := or_else req_left_date today in
  let '(rows, changes) :=
    sql_update (fun s => id s =? sid) (set_left_date (Some leaveDate))
               (students db) in
  if changes =? 0 then (with_students db rows, Error 404 "Student not found")
  else (with_students db rows,
        Json "Student marked as left successfully"%string).

(** PUT /api/students/:id/reactivate *)
Definition reactivate (sid : Z) (db : database) : database * reply string :=
  let '(rows, changes) :=
    sql_update (fun s => id s =? sid) (set_left_date None) (students db) in
  if changes =? 0 then (with_students db rows, Error 404 "Student not found")
  else (with_students db rows,
        Json "Student reactivated successfully"%string).

(** *** Study halls *)

(** DELETE /api/study-halls/:id.  The scalar subquery is the name of the
    hall with that id, or NULL. *)
Definition hall_name_of (hid : Z) (db : database) : option string :=
  option_map sh_name (find (fun h => sh_id h =? hid) (study_halls db)).

Definition delete_study_halls (hid : Z) (db : database)
    : database * reply string :=
  let count :=
    sql_count (fun s => holds (text_eq (Some (hall s)) (hall_name_of hid db)))
              (students db) in
  if 0 <? count then
    (db, Error 400 "Cannot delete study hall with students assigned to it")
  else
    let '(rows, changes) :=
      sql_delete (fun h => sh_id h =? hid) (study_halls db) in
    let db' := {| students := students db;
                  study_halls := rows;
                  students_seq := students_seq db |} in
    if changes =? 0 then (db', Error 404 "Study hall not found")
    else (db', Json "Study hall deleted successfully"%string).

(** *** Dashboard and reports *)

Record dashboard_data : Type := mkDashboard {
  totalStudents : Z;
  totalHalls : Z;
  activeStudents : Z;
  leftStudents : Z;
  monthlyFeeTotal : Z;
  totalFees : Z;
  pendingFees : Z;
  totalFeeAmount : Z;
  studentsWithPendingFees : Z
}.

(** [left_date IS NULL OR left_date = ''] *)
Definition dashboard_active (s : student) : bool :=
  holds (sql_or (Some (is_null (left_date s)))
                (text_eq (left_date s) (Some ""%string))).

(** [left_date IS NOT NULL AND left_date != ''] *)
Definition dashboard_left (s : student) : bool :=
  holds (sql_and (Some (negb (is_null (left_date s))))
                 (text_ne (left_date s) (Some ""%string))).

(** GET /api/dashboard *)
Definition dashboard (db : database) : dashboard_data :=
  {| totalStudents := sql_count (fun _ => true) (students db);
     totalHalls := sql_count (fun _ => true) (study_halls db);
     activeStudents := sql_count dashboard_active (students db);
     leftStudents := sql_count dashboard_left (students db);
     monthlyFeeTotal :=
       sql_sum monthly_fee (filter dashboard_active (students db));
     totalFees := sql_sum fee_paid (students db);
     pendingFees := sql_sum fee_due (students db);
     totalFeeAmount := sql_sum (fun s => fee_paid s + fee_due s) (students db);
     studentsWithPendingFees := sql_count (fun s => 0 <? fee_due s)
                                          (students db) |}.

(** A row of the fee collection query: one group per hall (the id is the
    primary key), over the students joined to it by name.  The rate is in
    tenths of a percent. *)
Record collection_row : Type := mkCollection {
  q_hall : string;
  q_totalStudents : Z;
  q_feesCollected : Z;
  q_feesPending : Z;
  q_totalFeeAmount : Z;
  q_collectionRate : Z
}.

Definition joined (sh : study_hall) (db : database) : list student :=
  filter (fun s => String.eqb (sh_name sh) (hall s)) (students db).

Definition collection_group (db : database) (sh : study_hall)
    : collection_row :=
  let g := joined sh db in
  let total := sql_sum (fun s => fee_paid s + fee_due s) g in
  {| q_hall := sh_name sh;
     q_totalStudents := Z.of_nat (List.length g);
     q_feesCollected := sql_sum fee_paid g;
     q_feesPending := sql_sum fee_due g;
     q_totalFeeAmount := total;
     q_collectionRate :=
       if (Z.of_nat (List.length g) =? 0) || (total =? 0) then 0
       else round_percent_tenths (sql_sum fee_paid g) total |}.

Definition collection_query (db : database) : list collection_row :=
  order_by (fun a b => String.leb (q_hall a) (q_hall b))
           (map (collection_group db) (study_halls db)).

(** The formatted row of the reply. *)
Record report_row : Type := mkReport {
  r_hall : string;
  r_totalStudents : Z;
  r_feesCollected : Z;
  r_feesPending : Z;
  r_totalFeeAmount : Z;
  r_collectionRate : string
}.

Definition format_row (row : collection_row) : report_row :=
  {| r_hall := q_hall row;
     r_totalStudents := q_totalStudents row;
     r_feesCollected := q_feesCollected row;
     r_feesPending := q_feesPending row;
     r_totalFeeAmount := q_totalFeeAmount row;
     r_collectionRate :=
       if q_collectionRate row =? 0 then "0%"%string
       else (string_of_tenths (q_collectionRate row) ++ "%")%string |}.

(** GET /api/reports/fee-collection *)
Definition fee_collection (db : database) : list report_row :=
  map format_row (collection_query db).

End Server.

(** ** Notions of the specification *)

Module Spec.
Import Server.



(** Two rows that agree on every column but [left_date]. *)
Definition same_but_left_date (a b : student) : Prop :=
  id a = id b /\ name a = name b /\ cabin a = cabin b /\ hall a = hall b /\
  phone a = phone b /\ fee_paid a = fee_paid b /\ fee_due a = fee_due b /\
  status a = status b /\ join_date a = join_date b /\
  monthly_fee a = monthly_fee b /\
  last_fee_calculated_date a = last_fee_calculated_date b /\
  created_at a = created_at b.

(** The UPDATE of the leave and reactivate handlers: one column of the
    rows with the given id. *)
Definition update_left_date (sid : Z) (d : option string) (db : database)
    : database :=
  with_students db
    (map (fun s => if id s =? sid then set_left_date d s else s)
         (students db)).

(** The rows of [students] that name the hall. *)
Definition students_of_hall (hall_name : string) (db : database)
    : list student :=
  filter (fun s => String.eqb (hall s) hall_name) (students db).

(** Accrual runs one after the other, on the given dates. *)
Definition accrual_runs (dates : list string) (db : database) : database :=
  fold_left (fun acc D => fst (calculate_monthly D acc)) dates db.

(** The number whose order is the order of the printed dates. *)
Definition date_key (ymd : Z * Z * Z) : Z :=
  let '(y, m, d) := ymd in y * 10000 + m * 100 + d.

(** The fields of a date that prints as YYYY-MM-DD. *)
Definition printable (ymd : Z * Z * Z) : Prop :=
  let '(y, m, d) := ymd in
  0 <= y <= 9999 /\ 0 <= m <= 99 /\ 0 <= d <= 99.

(** *** Amounts and rates *)

(** The amounts of a ledger added up in absolute value: a bound of every
    sum that a query takes over some of its rows. *)
Definition volume (rows : list student) : Z :=
  sql_sum (fun s => Z.abs (fee_paid s) + Z.abs (fee_due s)
                    + Z.abs (monthly_fee s)) rows.





(** *** The calendar of the specification

    A date is a year, a month and a day.  The specification speaks of
    dates that are earlier or later and of one calendar month before or
    after a date; they are defined here on the calendar itself, with no
    reference to the texts and the date function of the database. *)

(** The days from the first of March of the year 0 to the date, in the
    proleptic Gregorian calendar: a year has 365 days and a leap day every
    fourth year, except every hundredth, but every four-hundredth; the
    year is counted from March so that the leap day comes last. *)
Definition day_number (ymd : Z * Z * Z) : Z :=
  let '(y, m, d) := ymd in
  let y' := if m <=? 2 then y - 1 else y in
  let mp := if m <=? 2 then m + 9 else m - 3 in
  365 * y' + y' / 4 - y' / 100 + y' / 400 + (153 * mp + 2) / 5 + d - 1.

Definition month_after (ym : Z * Z) : Z * Z :=
  let '(y, m) := ym in if m =? 12 then (y + 1, 1) else (y, m + 1).

Definition month_before (ym : Z * Z) : Z * Z :=
  let '(y, m) := ym in if m =? 1 then (y - 1, 12) else (y, m - 1).

(** The days from the first of a month to the first of the next. *)
Definition month_length (ym : Z * Z) : Z :=
  let '(y, m) := ym in
  let '(y1, m1) := month_after ym in
  day_number (y1, m1, 1) - day_number (y, m, 1).

(** The day [d] of a month, counted on into the next month when the
    month is shorter than [d] days. *)
Definition day_of_month (ym : Z * Z) (d : Z) : Z * Z * Z :=
  let n := month_length ym in
  if d <=? n then (fst ym, snd ym, d)
  else (fst (month_after ym), snd (month_after ym), d - n).

(** One calendar month after and before a date: the same day of the
    following and of the preceding month. *)
Definition plus_one_month (ymd : Z * Z * Z) : Z * Z * Z :=
  let '(y, m, d) := ymd in day_of_month (month_after (y, m)) d.

Definition minus_one_month (ymd : Z * Z * Z) : Z * Z * Z :=
  let '(y, m, d) := ymd in day_of_month (month_before (y, m)) d.










End Spec.

(** ** A small ledger used in the examples *)

Module Sample.
Import JS Server.

Definition asha : student :=
  {| id := 1; name := "Asha"; cabin := "C1"; hall := "Hall A";
     phone := "555-0101"; fee_paid := 1000; fee_due := 0; status := "Paid";
     join_date := Some "2024-01-01"%string; left_date := None;
     monthly_fee := 500; last_fee_calculated_date := None;
     created_at := "2024-01-01 09:00:00" |}.

(** Departed. *)
Definition ben : student :=
  {| id := 2; name := "Ben"; cabin := "C2"; hall := "Hall B";
     phone := "555-0102"; fee_paid := 0; fee_due := 500; status := "Pending";
     join_date := Some "2023-11-05"%string;
     left_date := Some "2024-01-20"%string;
     monthly_fee := 500; last_fee_calculated_date := None;
     created_at := "2023-11-05 10:30:00" |}.

(** The departure date is the empty text. *)
Definition chen : student :=
  {| id := 3; name := "Chen"; cabin := "C3"; hall := "Hall B";
     phone := "555-0103"; fee_paid := 300; fee_due := 150;
     status := "Pending";
     join_date := Some "2024-01-10"%string; left_date := Some ""%string;
     monthly_fee := 300; last_fee_calculated_date := None;
     created_at := "2024-01-10 08:15:00" |}.

(** In credit by one monthly fee. *)
Definition dev : student :=
  {| id := 4; name := "Dev"; cabin := "C4"; hall := "Hall B";
     phone := "555-0104"; fee_paid := 1500; fee_due := -500;
     status := "Pending";
     join_date := Some "2024-01-15"%string; left_date := None;
     monthly_fee := 500;
     last_fee_calculated_date := Some "2023-12-20"%string;
     created_at := "2024-01-15 11:00:00" |}.

Definition hall_b : study_hall :=
  {| sh_id := 1; sh_name := "Hall B"; capacity := 40;
     location := "First floor"; description := "";
     sh_created_at := "2023-10-01 09:00:00" |}.

Definition hall_a : study_hall :=
  {| sh_id := 2; sh_name := "Hall A"; capacity := 25;
     location := "Ground floor"; description := "Quiet";
     sh_created_at := "2023-10-02 09:00:00" |}.

Definition hall_c : study_hall :=
  {| sh_id := 3; sh_name := "Hall C"; capacity := 10;
     location := "Annex"; description := "";
     sh_created_at := "2023-10-03 09:00:00" |}.

Definition ledger : database :=
  {| students := [asha; ben; chen; dev];
     study_halls := [hall_b; hall_a; hall_c];
     students_seq := 4 |}.



(** A creation request that leaves the fee fields out. *)
Definition bare_body : student_body :=
  {| req_name := Some "Esi"%string; req_cabin := Some "C5"%string;
     req_hall := Some "Hall A"%string; req_phone := Some "555-0105"%string;
     feePaid := JUndefined; feeDue := JUndefined; monthlyFee := JUndefined;
     joinDate := None; leftDate := None |}.

(** A full request, the balance given as a number. *)
Definition full_body : student_body :=
  {| req_name := Some "Asha"%string; req_cabin := Some "C1"%string;
     req_hall := Some "Hall A"%string; req_phone := Some "555-0101"%string;
     feePaid := JNum 1000; feeDue := JStr "250"; monthlyFee := JNum 500;
     joinDate := Some "2024-01-01"%string; leftDate := None |}.

(** The balance is a text that starts with a no-break space (U+00A0, two
    bytes), the fee a text that starts with an ideographic space (U+3000,
    three bytes). *)
Definition padded_body : student_body :=
  {| req_name := Some "Gil"%string; req_cabin := Some "C7"%string;
     req_hall := Some "Hall B"%string; req_phone := Some "555-0107"%string;
     feePaid := JNum 0;
     feeDue := JStr (String (ascii_of_nat 194)
                       (String (ascii_of_nat 160) "250"));
     monthlyFee := JStr (String (ascii_of_nat 227)
                           (String (ascii_of_nat 128)
                              (String (ascii_of_nat 128) "500")));
     joinDate := None; leftDate := None |}.


End Sample.

(** ** Startup: the port, the address and the tables *)

Module Startup.
Import Server.

(** The state of a promise; [Pending] is a computation that has not
    settled within the steps it was given. *)
Inductive promise (A : Type) : Type :=
| Resolved (value : A)
| Rejected (reason : string)
| Pending.
Arguments Resolved {A} value.
Arguments Rejected {A} reason.
Arguments Pending {A}.

(** What [server.listen(port)] leads to: the 'listening' event, with the
    port [server.address().port] that was bound, or an error with its
    code (a port that is not valid is an error as well: the exception
    rejects the promise the same way). *)
Inductive listen_event : Type :=
| Listening (port : Z)
| ListenError (code : string).

(** [findAvailablePort(startPort)]: each recursive call probes the next
    port; [fuel] bounds the number of probes. *)
Fixpoint findAvailablePort (fuel : nat) (listen : Z -> listen_event)
    (startPort : Z) : promise Z :=
  match fuel with
  | O => Pending
  | S fuel' =>
      match listen startPort with
      | Listening port => Resolved port
      | ListenError code =>
          if String.eqb code "EADDRINUSE"
          then findAvailablePort fuel' listen (startPort + 1)
          else Rejected code
      end
  end.

(** An entry of [os.networkInterfaces()]. *)
Record net_interface : Type := mkInterface {
  address : string;
  family : string;
  internal : bool
}.

(** The inner loop of [getIPAddress], over the addresses of one name. *)
Fixpoint first_external (addresses : list net_interface) : option string :=
  match addresses with
  | [] => None
  | i :: rest =>
      if String.eqb (family i) "IPv4" && negb (internal i)
      then Some (address i)
      else first_external rest
  end.

(** [getIPAddress()], over the interfaces in the order of [Object.keys]. *)
Fixpoint getIPAddress (interfaces : list (string * list net_interface))
    : string :=
  match interfaces with
  | [] => "localhost"%string
  | (_, addresses) :: rest =>
      match first_external addresses with
      | Some a => a
      | None => getIPAddress rest
      end
  end.

(** The database file: each of the two tables exists, with its rows, or
    does not. *)
Record disk : Type := mkDisk {
  students_table : option (list student);
  study_halls_table : option (list study_hall)
}.

(** [CREATE TABLE] fails when the table exists. *)
Definition createStudyHallsTable (d : disk) : disk * promise unit :=
  match study_halls_table d with
  | Some _ => (d, Rejected "SQLITE_ERROR: table study_halls already exists")
  | None =>
      ({| students_table := students_table d;
          study_halls_table := Some [] |},
       Resolved tt)
  end.

Definition createStudentsTable (d : disk) : disk * promise unit :=
  match students_table d with
  | Some _ => (d, Rejected "SQLITE_ERROR: table students already exists")
  | None =>
      createStudyHallsTable
        {| students_table := Some [];
           study_halls_table := study_halls_table d |}
  end.

(** [initializeDatabase()]: [study_halls] is looked up in [sqlite_master]
    only when [students] exists. *)
Definition initializeDatabase (d : disk) : disk * promise unit :=
  match students_table d with
  | None => createStudentsTable d
  | Some _ =>
      match study_halls_table d with
      | None => createStudyHallsTable d
      | Some _ => (d, Resolved tt)
      end
  end.

End Startup.

(** ** The other routes *)

Module Routes.
Import JS SQLite Server.

(** GET /api/students: [ORDER BY created_at DESC] *)
Definition get_students (db : database) : list student :=
  order_by (fun a b => String.leb (created_at b) (created_at a))
           (students db).

(** GET /api/students/recent: the same with [LIMIT 5] *)
Definition get_students_recent (db : database) : list student :=
  firstn 5 (get_students db).

(** GET /api/students/:id *)
Definition get_student (sid : Z) (db : database) : reply student :=
  match find (fun s => id s =? sid) (students db) with
  | Some row => Json row
  | None => Error 404 "Student not found"
  end.

(** GET /api/study-halls: [ORDER BY name] *)
Definition get_study_halls (db : database) : list study_hall :=
  order_by (fun a b => String.leb (sh_name a) (sh_name b)) (study_halls db).

(** GET /api/study-halls/:id *)
Definition get_study_hall (hid : Z) (db : database) : reply study_hall :=
  match find (fun h => sh_id h =? hid) (study_halls db) with
  | Some row => Json row
  | None => Error 404 "Study hall not found"
  end.

(** GET /api/db-check *)
Record db_check_result : Type := mkCheck {
  studentsCount : Z;
  studyHallsCount : Z
}.

Definition db_check (db : database) : db_check_result :=
  {| studentsCount := sql_count (fun _ => true) (students db);
     studyHallsCount := sql_count (fun _ => true) (study_halls db) |}.

(** GET /api/debug/fees: the columns selected, [ORDER BY name]. *)
Record fee_row : Type := mkFeeRow {
  f_id : Z;
  f_name : string;
  f_fee_paid : Z;
  f_fee_due : Z;
  f_monthly_fee : Z;
  f_status : string;
  f_total_amount : Z
}.

Definition fee_row_of (s : student) : fee_row :=
  {| f_id := id s;
     f_name := name s;
     f_fee_paid := fee_paid s;
     f_fee_due := fee_due s;
     f_monthly_fee := monthly_fee s;
     f_status := status s;
     f_total_amount := fee_paid s + fee_due s |}.

Record fee_summary : Type := mkFeeSummary {
  d_totalStudents : Z;
  d_totalFeePaid : Z;
  d_totalFeeDue : Z;
  d_studentsWithPendingFees : Z;
  detailedData : list fee_row
}.

(** [x || 0] on a number *)
Definition num_or_0 (x : Z) : Z := if x =? 0 then 0 else x.

Definition debug_fees (db : database) : fee_summary :=
  let rows :=
    order_by (fun a b => String.leb (f_name a) (f_name b))
             (map fee_row_of (students db)) in
  {| d_totalStudents := Z.of_nat (List.length rows);
     d_totalFeePaid :=
       fold_left (fun sum row => sum + num_or_0 (f_fee_paid row)) rows 0;
     d_totalFeeDue :=
       fold_left (fun sum row => sum + num_or_0 (f_fee_due row)) rows 0;
     d_studentsWithPendingFees :=
       Z.of_nat (List.length
                   (filter (fun row => 0 <? num_or_0 (f_fee_due row)) rows));
     detailedData := rows |}.

(** *** Creating and editing study halls *)

(** The database with the AUTOINCREMENT counter of [study_halls]. *)
Record store : Type := mkStore {
  tables : database;
  study_halls_seq : Z
}.

(** The body of a study hall request; the capacity is absent or a
    number. *)
Record hall_body : Type := mkHallBody {
  hall_name : option string;
  hall_capacity : option Z;
  hall_location : option string;
  hall_description : option string
}.

(** [!capacity] is true for a missing capacity and for 0. *)
Definition truthy_num (n : option Z) : bool :=
  match n with
  | Some z => negb (z =? 0)
  | None => false
  end.

Definition num_of (n : option Z) : Z :=
  match n with
  | Some z => z
  | None => 0
  end.

Definition hall_fields_missing (body : hall_body) : bool :=
  negb (truthy (hall_name body)) || negb (truthy_num (hall_capacity body))
  || negb (truthy (hall_location body)).

Definition with_halls (st : store) (rows : list study_hall) (seq : Z)
    : store :=
  {| tables := {| students := students (tables st);
                  study_halls := rows;
                  students_seq := students_seq (tables st) |};
     study_halls_seq := seq |}.

Definition next_hall_id (st : store) : Z :=
  1 + fold_right Z.max (study_halls_seq st)
                 (map sh_id (study_halls (tables st))).

(** POST /api/study-halls.  The INSERT fails on the UNIQUE constraint
    when a hall has the name. *)
Definition post_study_halls (now : string) (body : hall_body) (st : store)
    : store * reply Z :=
  if hall_fields_missing body then
    (st, Error 400 "Name, capacity, and location are required")
  else if existsb (fun h => String.eqb (sh_name h) (text_of (hall_name body)))
                  (study_halls (tables st)) then
    (st, Error 400 "Study hall with this name already exists")
  else
    let lastID := next_hall_id st in
    let row :=
      {| sh_id := lastID;
         sh_name := text_of (hall_name body);
         capacity := num_of (hall_capacity body);
         location := text_of (hall_location body);
         description := or_else (hall_description body) "";
         sh_created_at := now |} in
    (with_halls st (study_halls (tables st) ++ [row]) lastID, Json lastID).

Definition set_hall (body : hall_body) (h : study_hall) : study_hall :=
  {| sh_id := sh_id h;
     sh_name := text_of (hall_name body);
     capacity := num_of (hall_capacity body);
     location := text_of (hall_location body);
     description := or_else (hall_description body) "";
     sh_created_at := sh_created_at h |}.

(** The UNIQUE constraint of an UPDATE that writes the name [nm] on the
    rows with the id [hid]: it fails when a row is written while another
    row has the name, be it a row with another id or a second row that
    is written. *)
Definition rename_conflict (hid : Z) (nm : string) (rows : list study_hall)
    : bool :=
  let changes := sql_count (fun h => sh_id h =? hid) rows in
  ((1 <=? changes)
   && existsb (fun h => negb (sh_id h =? hid) && String.eqb (sh_name h) nm)
              rows)
  || (2 <=? changes).

(** PUT /api/study-halls/:id *)
Definition put_study_halls (hid : Z) (body : hall_body) (st : store)
    : store * reply string :=
  if hall_fields_missing body then
    (st, Error 400 "Name, capacity, and location are required")
  else if rename_conflict hid (text_of (hall_name body))
                          (study_halls (tables st)) then
    (st, Error 400 "Study hall with this name already exists")
  else
    let '(rows, changes) :=
      sql_update (fun h => sh_id h =? hid) (set_hall body)
                 (study_halls (tables st)) in
    if changes =? 0
    then (with_halls st rows (study_halls_seq st),
          Error 404 "Study hall not found")
    else (with_halls st rows (study_halls_seq st),
          Json "Study hall updated successfully"%string).

(** *** The routes that write, as one transition *)

Inductive request : Type :=
| PostStudent (today now : string) (body : student_body)
| PutStudent (sid : Z) (body : student_body)
| DeleteStudent (sid : Z)
| CalculateMonthly (currentDate : string)
| Leave (today : string) (sid : Z) (left_date : option string)
| Reactivate (sid : Z)
| PostStudyHall (now : string) (body : hall_body)
| PutStudyHall (hid : Z) (body : hall_body)
| DeleteStudyHall (hid : Z).

Definition on_tables (st : store) (db : database) : store :=
  {| tables := db; study_halls_seq := study_halls_seq st |}.

(** The database after the handler of the request has run. *)
Definition handle (r : request) (st : store) : store :=
  match r with
  | PostStudent today now body =>
      on_tables st (fst (post_students today now body (tables st)))
  | PutStudent sid body =>
      on_tables st (fst (put_students sid body (tables st)))
  | DeleteStudent sid => on_tables st (fst (delete_students sid (tables st)))
  | CalculateMonthly currentDate =>
      on_tables st (fst (calculate_monthly currentDate (tables st)))
  | Leave today sid left_date =>
      on_tables st (fst (leave today sid left_date (tables st)))
  | Reactivate sid => on_tables st (fst (reactivate sid (tables st)))
  | PostStudyHall now body => fst (post_study_halls now body st)
  | PutStudyHall hid body => fst (put_study_halls hid body st)
  | DeleteStudyHall hid =>
      on_tables st (fst (delete_study_halls hid (tables st)))
  end.

Definition handle_all (requests : list request) (st : store) : store :=
  fold_left (fun acc r => handle r acc) requests st.

(** The database of a fresh installation. *)
Definition fresh : store :=
  {| tables := {| students := []; study_halls := []; students_seq := 0 |};
     study_halls_seq := 0 |}.

(** The keys the schema declares: the two primary keys, the UNIQUE name
    of a hall, and the AUTOINCREMENT counters above every id. *)
Definition keys_hold (st : store) : Prop :=
  NoDup (map id (students (tables st))) /\
  NoDup (map sh_id (study_halls (tables st))) /\
  NoDup (map sh_name (study_halls (tables st))) /\
  Forall (fun s => id s <= students_seq (tables st)) (students (tables st)) /\
  Forall (fun h => sh_id h <= study_halls_seq st) (study_halls (tables st)).

(** A request carries the reading of the clock its handler takes; the
    date [today] of a reading is never the empty text. *)
Definition dated (r : request) : Prop :=
  match r with
  | Leave today _ _ => today <> ""%string
  | _ => True
  end.

(** A departure date is NULL or a text that is not empty. *)
Definition left_date_set_or_null (s : student) : Prop :=
  left_date s <> Some ""%string.

(** The status is one of the two labels, and 'Paid' goes with a balance
    of zero. *)
Definition paid_means_settled (s : student) : Prop :=
  (status s = "Paid"%string \/ status s = "Pending"%string) /\
  (status s = "Paid"%string -> fee_due s = 0).

End Routes.

(** * Properties *)

(** ** The SQL statements as list operations *)

Module SqlFacts.
Import Server.

Lemma sql_update_rows {R : Type} (w : R -> bool) (f : R -> R) rows :
  fst (sql_update w f rows) = map (fun r => if w r then f r else r) rows.
Proof. reflexivity. Qed.

Lemma sql_update_nth {R : Type} (w : R -> bool) (f : R -> R) rows k :
  nth_error (fst (sql_update w f rows)) k
  = option_map (fun r => if w r then f r else r) (nth_error rows k).
Proof. unfold sql_update; simpl. apply nth_error_map. Qed.


Lemma count_zero_iff {R : Type} (w : R -> bool) rows :
  sql_count w rows = 0 <-> filter w rows = [].
Proof.
  unfold sql_count. destruct (filter w rows); simpl; split;
    intros H; try reflexivity; try discriminate; lia.
Qed.

Lemma filter_nil_iff {R : Type} (w : R -> bool) rows :
  filter w rows = [] <-> forall r, In r rows -> w r = false.
Proof.
  split.
  - intros H r Hr. destruct (w r) eqn:E; [|reflexivity].
    assert (Hin : In r (filter w rows)) by (apply filter_In; auto).
    rewrite H in Hin. destruct Hin.
  - intros H. induction rows as [|r rows IH]; simpl; [reflexivity|].
    rewrite (H r) by (left; reflexivity).
    apply IH. intros r' Hr'. apply H. right. exact Hr'.
Qed.

Lemma filter_comm {R : Type} (p q : R -> bool) rows :
  filter p (filter q rows) = filter q (filter p rows).
Proof.
  induction rows as [|r rows IH]; simpl; [reflexivity|].
  destruct (p r) eqn:Ep, (q r) eqn:Eq; simpl;
    rewrite ?Ep, ?Eq, IH; reflexivity.
Qed.

(** ORDER BY returns the same rows, in ascending order of the key. *)
Section OrderBy.
Context {R : Type} (le : R -> R -> bool).
Hypothesis le_total : forall a b, le a b = true \/ le b a = true.

Lemma insert_by_perm x l : Permutation (x :: l) (insert_by le x l).
Proof.
  induction l as [|y l IH]; simpl; [apply Permutation_refl|].
  destruct (le x y); [apply Permutation_refl|].
  eapply perm_trans; [apply perm_swap|].
  apply perm_skip. exact IH.
Qed.

Lemma order_by_perm l : Permutation l (order_by le l).
Proof.
  induction l as [|x l IH]; simpl; [apply perm_nil|].
  eapply perm_trans; [apply perm_skip; exact IH|].
  apply insert_by_perm.
Qed.

Lemma insert_by_hd x y l :
  le y x = true ->
  HdRel (fun a b => le a b = true) y l ->
  HdRel (fun a b => le a b = true) y (insert_by le x l).
Proof.
  intros Hyx Hl. destruct l as [|z l]; simpl.
  - constructor. exact Hyx.
  - destruct (le x z); constructor; [exact Hyx|].
    inversion Hl; assumption.
Qed.

Lemma insert_by_sorted x l :
  Sorted (fun a b => le a b = true) l ->
  Sorted (fun a b => le a b = true) (insert_by le x l).
Proof.
  induction 1 as [|y l Hs IH Hhd]; simpl.
  - repeat constructor.
  - destruct (le x y) eqn:E.
    + constructor; [constructor; assumption|]. constructor. exact E.
    + constructor; [exact IH|].
      apply insert_by_hd; [|exact Hhd].
      destruct (le_total x y) as [H|H]; [congruence|exact H].
Qed.

Lemma order_by_sorted l : Sorted (fun a b => le a b = true) (order_by le l).
Proof.
  induction l as [|x l IH]; simpl; [constructor|].
  apply insert_by_sorted. exact IH.
Qed.
End OrderBy.


End SqlFacts.

(** ** Dates in ISO form *)

Module DateFacts.
Import Digits SQLite Spec.

Lemma code_digit_char n : 0 <= n <= 9 -> code (digit_char n) = 48 + n.
Proof.
  intros Hn. unfold code, digit_char.
  rewrite N_ascii_embedding by lia. lia.
Qed.

Lemma digit_digit_char n : 0 <= n <= 9 -> digit (digit_char n) = Some n.
Proof.
  intros Hn. unfold digit. rewrite code_digit_char by exact Hn.
  replace (48 <=? 48 + n) with true by (symmetry; apply Z.leb_le; lia).
  replace (48 + n <=? 57) with true by (symmetry; apply Z.leb_le; lia).
  cbn [andb]. f_equal. lia.
Qed.

Lemma digit_char_compare a b :
  0 <= a <= 9 -> 0 <= b <= 9 ->
  Ascii.compare (digit_char a) (digit_char b) = (a ?= b).
Proof.
  intros Ha Hb. unfold Ascii.compare, digit_char.
  rewrite !N_ascii_embedding by lia.
  rewrite Z2N.inj_compare by lia.
  apply Z.add_compare_mono_l.
Qed.

Lemma ascii_compare_refl c : Ascii.compare c c = Eq.
Proof. unfold Ascii.compare. apply N.compare_refl. Qed.

Lemma digits2_pad2 n :
  0 <= n <= 99 ->
  digits2 (digit_char (n / 10)) (digit_char (n mod 10)) = Some n.
Proof.
  intros Hn. unfold digits2.
  assert (0 <= n / 10 <= 9) by (Z.div_mod_to_equations; lia).
  assert (0 <= n mod 10 <= 9) by (Z.div_mod_to_equations; lia).
  rewrite !digit_digit_char by assumption.
  f_equal. Z.div_mod_to_equations; lia.
Qed.

(** SQLite reads back the date that it, or [toISOString], printed. *)
Lemma parse_render y m d :
  0 <= y <= 9999 -> 1 <= m <= 12 -> 1 <= d <= 31 ->
  parseYyyyMmDd (render_date (y, m, d)) = Some (y, m, d).
Proof.
  intros Hy Hm Hd. unfold render_date, pad4, pad2, parseYyyyMmDd.
  cbn [append].
  assert (0 <= y / 100 <= 99) by (Z.div_mod_to_equations; lia).
  assert (0 <= y mod 100 <= 99) by (Z.div_mod_to_equations; lia).
  rewrite !digits2_pad2 by lia.
  replace (1 <=? m) with true by (symmetry; apply Z.leb_le; lia).
  replace (m <=? 12) with true by (symmetry; apply Z.leb_le; lia).
  replace (1 <=? d) with true by (symmetry; apply Z.leb_le; lia).
  replace (d <=? 31) with true by (symmetry; apply Z.leb_le; lia).
  rewrite Ascii.eqb_refl. cbn [andb]. do 3 f_equal.
  Z.div_mod_to_equations; lia.
Qed.

Lemma toISODate_render y m d :
  0 <= y <= 9999 -> JS.toISODate y m d = render_date (y, m, d).
Proof.
  intros Hy. unfold JS.toISODate, render_date.
  replace (0 <=? y) with true by (symmetry; apply Z.leb_le; lia).
  replace (y <=? 9999) with true by (symmetry; apply Z.leb_le; lia).
  reflexivity.
Qed.

Lemma pad2_compare a b r s :
  0 <= a <= 99 -> 0 <= b <= 99 ->
  String.compare (pad2 a ++ r) (pad2 b ++ s) =
  match a ?= b with
  | Eq => String.compare r s
  | c => c
  end.
Proof.
  intros Ha Hb. unfold pad2. simpl.
  assert (0 <= a / 10 <= 9) by (Z.div_mod_to_equations; lia).
  assert (0 <= b / 10 <= 9) by (Z.div_mod_to_equations; lia).
  assert (0 <= a mod 10 <= 9) by (Z.div_mod_to_equations; lia).
  assert (0 <= b mod 10 <= 9) by (Z.div_mod_to_equations; lia).
  rewrite !digit_char_compare by assumption.
  pose proof (Z.div_mod a 10). pose proof (Z.div_mod b 10).
  destruct (Z.compare_spec (a / 10) (b / 10)) as [E|E|E].
  - destruct (Z.compare_spec (a mod 10) (b mod 10)) as [E'|E'|E'].
    + replace (a ?= b) with Eq by (symmetry; apply Z.compare_eq_iff; lia).
      reflexivity.
    + replace (a ?= b) with Lt by (symmetry; apply Z.compare_lt_iff; lia).
      reflexivity.
    + replace (a ?= b) with Gt by (symmetry; apply Z.compare_gt_iff; lia).
      reflexivity.
  - replace (a ?= b) with Lt by (symmetry; apply Z.compare_lt_iff; lia).
    reflexivity.
  - replace (a ?= b) with Gt by (symmetry; apply Z.compare_gt_iff; lia).
    reflexivity.
Qed.


Lemma render_date_pads y m d :
  render_date (y, m, d) =
  (pad2 (y / 100) ++ pad2 (y mod 100) ++
   String "-" (pad2 m ++ String "-" (pad2 d ++ "")))%string.
Proof. reflexivity. Qed.

(** Dates printed as YYYY-MM-DD compare as texts the way they compare as
    dates. *)
Lemma render_date_compare a b :
  printable a -> printable b ->
  String.compare (render_date a) (render_date b)
  = (date_key a ?= date_key b).
Proof.
  destruct a as [[y1 m1] d1], b as [[y2 m2] d2].
  intros (Hy1 & Hm1 & Hd1) (Hy2 & Hm2 & Hd2).
  rewrite !render_date_pads. unfold date_key.
  assert (0 <= y1 / 100 <= 99) by (Z.div_mod_to_equations; lia).
  assert (0 <= y2 / 100 <= 99) by (Z.div_mod_to_equations; lia).
  assert (0 <= y1 mod 100 <= 99) by (Z.div_mod_to_equations; lia).
  assert (0 <= y2 mod 100 <= 99) by (Z.div_mod_to_equations; lia).
  pose proof (Z.div_mod y1 100). pose proof (Z.div_mod y2 100).
  rewrite pad2_compare by assumption.
  destruct (Z.compare_spec (y1 / 100) (y2 / 100));
    [| symmetry; solve [apply Z.compare_lt_iff; lia
                       | apply Z.compare_gt_iff; lia] ..].
  rewrite pad2_compare by assumption.
  destruct (Z.compare_spec (y1 mod 100) (y2 mod 100));
    [| symmetry; solve [apply Z.compare_lt_iff; lia
                       | apply Z.compare_gt_iff; lia] ..].
  cbn [String.compare]. rewrite ascii_compare_refl.
  rewrite pad2_compare by assumption.
  destruct (Z.compare_spec m1 m2);
    [| symmetry; solve [apply Z.compare_lt_iff; lia
                       | apply Z.compare_gt_iff; lia] ..].
  cbn [String.compare]. rewrite ascii_compare_refl.
  rewrite pad2_compare by assumption.
  destruct (Z.compare_spec d1 d2);
    [| symmetry; solve [apply Z.compare_lt_iff; lia
                       | apply Z.compare_gt_iff; lia] ..].
  cbn [String.compare]. symmetry. apply Z.compare_eq_iff. lia.
Qed.


Lemma days_in_month_bounds y m : 28 <= days_in_month y m <= 31.
Proof.
  unfold days_in_month.
  destruct (m =? 2); [destruct (is_leap y); lia|].
  destruct ((m =? 4) || (m =? 6) || (m =? 9) || (m =? 11)); lia.
Qed.

Lemma days_in_december y : days_in_month y 12 = 31.
Proof. reflexivity. Qed.

(** One month before a date of January to December. *)
Lemma add_months_back y m d :
  1 <= m <= 12 ->
  add_months (-1) (y, m, d)
  = if m =? 1 then (y - 1, 12, d) else (y, m - 1, d).
Proof.
  intros Hm. unfold add_months.
  destruct (Z.eqb_spec m 1) as [->|Hne].
  - reflexivity.
  - replace (0 <? m + -1) with true by (symmetry; apply Z.ltb_lt; lia).
    rewrite Z.quot_small by lia.
    f_equal. f_equal; lia.
Qed.

(** The month before [y]-[m]-[d], brought back to a calendar date, is a
    date before it. *)
Lemma month_back_before y m d :
  1 <= m <= 12 -> 1 <= d <= 31 ->
  let '(y', m', d') := normalize (add_months (-1) (y, m, d)) in
  y - 1 <= y' <= y /\ 1 <= m' <= 12 /\ 1 <= d' <= 31 /\
  date_key (y', m', d') < date_key (y, m, d).
Proof.
  intros Hm Hd. rewrite add_months_back by exact Hm.
  destruct (Z.eqb_spec m 1) as [->|Hne]; unfold normalize.
  - rewrite days_in_december.
    replace (d <=? 31) with true by (symmetry; apply Z.leb_le; lia).
    unfold date_key. lia.
  - pose proof (days_in_month_bounds y (m - 1)).
    destruct (Z.leb_spec d (days_in_month y (m - 1))); unfold date_key.
    + lia.
    + replace (m - 1 + 1) with m by lia. lia.
Qed.


(** *** The date function against the calendar *)









(** One calendar month after the day [d] of a month is [d - 1] days after
    the first of the following month, and one calendar month before it
    is [d - 1] days after the first of the preceding month. *)
Lemma day_of_month_days ym d :
  day_number (day_of_month ym d)
  = day_number (fst ym, snd ym, 1) + d - 1.
Proof.
  destruct ym as [y m]. unfold day_of_month. cbn [fst snd].
  destruct (Z.leb_spec d (month_length (y, m))) as [H|H].
  - unfold day_number. lia.
  - unfold month_length.
    destruct (month_after (y, m)) as [y1 m1]. cbn [fst snd].
    unfold day_number. lia.
Qed.

Lemma plus_one_month_days y m d :
  day_number (plus_one_month (y, m, d))
  = day_number (fst (month_after (y, m)), snd (month_after (y, m)), 1)
    + d - 1.
Proof. unfold plus_one_month. apply day_of_month_days. Qed.

Lemma minus_one_month_days y m d :
  day_number (minus_one_month (y, m, d))
  = day_number (fst (month_before (y, m)), snd (month_before (y, m)), 1)
    + d - 1.
Proof. unfold minus_one_month. apply day_of_month_days. Qed.









End DateFacts.

(** ** Monthly accrual *)

Module Accrual.
Import JS SQLite Server Spec SqlFacts DateFacts.

Lemma accrual_result D db :
  calculate_monthly D db
  = (with_students db
       (map (fun s => if accrual_where D s then accrual_set D s else s)
            (students db)),
     Json (Z.of_nat (List.length (filter (accrual_where D) (students db))))).
Proof. reflexivity. Qed.

Lemma accrual_nth D db k :
  nth_error (students (fst (calculate_monthly D db))) k
  = option_map (fun s => if accrual_where D s then accrual_set D s else s)
               (nth_error (students db) k).
Proof. rewrite accrual_result. cbn [fst with_students students]. apply nth_error_map. Qed.

(** What the WHERE clause asks of a row. *)
Lemma accrual_where_true D s :
  accrual_where D s = true ->
  left_date s = None /\ 0 < monthly_fee s /\
  (last_fee_calculated_date s = None \/
   text_lt (last_fee_calculated_date s) (date (Some D) (-1)) = Some true).
Proof.
  unfold accrual_where. intros H.
  destruct (left_date s); [discriminate H|].
  destruct (Z.ltb_spec 0 (monthly_fee s)); [|discriminate H].
  repeat split; [assumption|].
  destruct (last_fee_calculated_date s) as [stamp|]; [right|left; reflexivity].
  destruct (date (Some D) (-1)) as [cutoff|]; [|discriminate H].
  cbn in H |- *. destruct (stamp <? cutoff)%string;
    [reflexivity|discriminate H].
Qed.

Lemma accrual_where_departed D s :
  left_date s <> None -> accrual_where D s = false.
Proof.
  intros Hl. destruct (accrual_where D s) eqn:E; [|reflexivity].
  apply accrual_where_true in E. tauto.
Qed.




Lemma accrual_inv D db db' affected :
  calculate_monthly D db = (db', Json affected) ->
  db' = fst (calculate_monthly D db) /\
  affected = Z.of_nat (List.length (filter (accrual_where D) (students db))).
Proof.
  intros H. rewrite H. rewrite accrual_result in H.
  split; [reflexivity|]. congruence.
Qed.



Lemma accrual_runs_snoc dates D db :
  accrual_runs (dates ++ [D]) db
  = fst (calculate_monthly D (accrual_runs dates db)).
Proof. unfold accrual_runs. rewrite fold_left_app. reflexivity. Qed.

(** C4.  A student whose [left_date] is set keeps its whole row, and so
    its balance, status and stamp, through every run of the accrual,
    whatever the monthly fee and the stamp are, and through any sequence
    of runs. *)
Theorem departed_never_accrued dates db k s :
  nth_error (students db) k = Some s ->
  left_date s <> None ->
  nth_error (students (accrual_runs dates db)) k = Some s.
Proof.
  intros Hk Hl. induction dates as [|D dates IH] using rev_ind.
  - exact Hk.
  - rewrite accrual_runs_snoc, accrual_nth, IH. cbn [option_map].
    rewrite accrual_where_departed by exact Hl. reflexivity.
Qed.

Lemma departed_never_accrued_witness :
  nth_error
    (students (accrual_runs ["2024-02-02"; "2024-03-05"; "2024-04-06"]%string
                            Sample.ledger)) 1
  = Some Sample.ben.
Proof.
  apply departed_never_accrued.
  - reflexivity.
  - discriminate.
Defined.

(** C5.  The accrual writes the status 'Pending' on a selected student
    exactly when the monthly fee and the new balance are both positive,
    and keeps the stored status in every other case; no run turns a
    status into 'Paid'. *)
Theorem accrual_status D db db' affected k s s' :
  calculate_monthly D db = (db', Json affected) ->
  nth_error (students db) k = Some s ->
  nth_error (students db') k = Some s' ->
  (accrual_where D s = true ->
     (0 < monthly_fee s /\ 0 < fee_due s + monthly_fee s ->
        status s' = "Pending"%string) /\
     (~ (0 < monthly_fee s /\ 0 < fee_due s + monthly_fee s) ->
        status s' = status s)) /\
  (accrual_where D s = false -> status s' = status s) /\
  (status s' = "Paid"%string -> status s = "Paid"%string).
Proof.
  intros H Hk Hk'. apply accrual_inv in H. destruct H as [-> _].
  rewrite accrual_nth, Hk in Hk'. cbn [option_map] in Hk'.
  injection Hk' as <-.
  destruct (accrual_where D s); cbn [accrual_set status].
  - destruct (Z.ltb_spec 0 (monthly_fee s));
      destruct (Z.ltb_spec 0 (fee_due s + monthly_fee s));
      cbn [andb]; repeat split; intros; try reflexivity;
      try discriminate; try tauto; try lia.
  - repeat split; intros; try reflexivity; try discriminate; assumption.
Qed.

Lemma accrual_status_witness :
  status (accrual_set "2024-02-02" Sample.asha) = "Pending"%string.
Proof.
  refine (proj1 (proj1 (accrual_status "2024-02-02" Sample.ledger
                          (fst (calculate_monthly "2024-02-02" Sample.ledger))
                          2 0 Sample.asha
                          (accrual_set "2024-02-02" Sample.asha)
                          eq_refl eq_refl eq_refl) eq_refl) _).
  cbn. lia.
Defined.




End Accrual.

(** ** Creating and editing students *)

Module Students.
Import JS SQLite Server Spec SqlFacts.







End Students.

(** ** Leaving and coming back *)

Module Lifecycle.
Import JS SQLite Server Spec SqlFacts.

Lemma set_left_date_same d s : same_but_left_date s (set_left_date d s).
Proof. unfold same_but_left_date. cbn. repeat split. Qed.

Lemma same_but_left_date_refl s : same_but_left_date s s.
Proof. unfold same_but_left_date. repeat split. Qed.

Lemma no_change_iff sid rows :
  Z.of_nat (List.length (filter (fun s : student => id s =? sid) rows)) = 0
  <-> forall s, In s rows -> id s <> sid.
Proof.
  change (sql_count (fun s : student => id s =? sid) rows = 0
          <-> forall s, In s rows -> id s <> sid).
  rewrite count_zero_iff, filter_nil_iff.
  split; intros H s Hs; specialize (H s Hs).
  - apply Z.eqb_neq. exact H.
  - apply Z.eqb_neq. exact H.
Qed.

Lemma leave_result today sid d db :
  leave today sid d db
  = (update_left_date sid (Some (or_else d today)) db,
     if Z.of_nat (List.length (filter (fun s => id s =? sid) (students db)))
        =? 0
     then Error 404 "Student not found"
     else Json "Student marked as left successfully"%string).
Proof.
  unfold leave, sql_update, update_left_date.
  destruct (_ =? 0); reflexivity.
Qed.

Lemma reactivate_result sid db :
  reactivate sid db
  = (update_left_date sid None db,
     if Z.of_nat (List.length (filter (fun s => id s =? sid) (students db)))
        =? 0
     then Error 404 "Student not found"
     else Json "Student reactivated successfully"%string).
Proof.
  unfold reactivate, sql_update, update_left_date.
  destruct (_ =? 0); reflexivity.
Qed.

Lemma update_left_date_frame sid d db :
  study_halls (update_left_date sid d db) = study_halls db /\
  students_seq (update_left_date sid d db) = students_seq db /\
  List.length (students (update_left_date sid d db))
  = List.length (students db) /\
  forall k s, nth_error (students db) k = Some s ->
    exists s', nth_error (students (update_left_date sid d db)) k = Some s' /\
      same_but_left_date s s' /\
      (id s <> sid -> s' = s) /\
      (id s = sid -> left_date s' = d).
Proof.
  unfold update_left_date. cbn [with_students students study_halls
                                students_seq].
  repeat split; [apply length_map|].
  intros k s Hk. rewrite nth_error_map, Hk. cbn [option_map].
  eexists. split; [reflexivity|].
  destruct (Z.eqb_spec (id s) sid) as [E|E].
  - split; [apply set_left_date_same|]. split; [tauto|]. reflexivity.
  - split; [apply same_but_left_date_refl|]. split; [reflexivity|tauto].
Qed.

(** C8.  Marking a student as left and reactivating a student write one
    column, [left_date], of the rows with the given id: the date of the
    request, or today without one, when leaving, and NULL when
    reactivating.  The balance, the status, the accrual stamp and every
    other column of the row keep their values, and so do every other
    student and the halls.  The reply is 404 exactly when no student has
    the id. *)
Theorem lifecycle_frame today sid d db :
  let leaveDate := match d with
                   | Some given => if String.eqb given "" then today else given
                   | None => today
                   end in
  (forall db' r, leave today sid d db = (db', r) ->
     study_halls db' = study_halls db /\
     students_seq db' = students_seq db /\
     List.length (students db') = List.length (students db) /\
     (r = Error 404 "Student not found"
      <-> forall s, In s (students db) -> id s <> sid) /\
     forall k s, nth_error (students db) k = Some s ->
       exists s', nth_error (students db') k = Some s' /\
         same_but_left_date s s' /\
         (id s <> sid -> s' = s) /\
         (id s = sid -> left_date s' = Some leaveDate)) /\
  (forall db' r, reactivate sid db = (db', r) ->
     study_halls db' = study_halls db /\
     students_seq db' = students_seq db /\
     List.length (students db') = List.length (students db) /\
     (r = Error 404 "Student not found"
      <-> forall s, In s (students db) -> id s <> sid) /\
     forall k s, nth_error (students db) k = Some s ->
       exists s', nth_error (students db') k = Some s' /\
         same_but_left_date s s' /\
         (id s <> sid -> s' = s) /\
         (id s = sid -> left_date s' = None)).
Proof.
  intros leaveDate. split; intros db' r H.
  - rewrite leave_result in H. injection H as <- <-.
    destruct (update_left_date_frame sid (Some (or_else d today)) db)
      as (Hh & Hq & Hl & Hrows).
    repeat split; try assumption.
    + intros Hr. apply no_change_iff.
      destruct (_ =? 0) eqn:E; [apply Z.eqb_eq; exact E|discriminate Hr].
    + intros Hn. apply no_change_iff in Hn. rewrite Hn. reflexivity.
  - rewrite reactivate_result in H. injection H as <- <-.
    destruct (update_left_date_frame sid None db) as (Hh & Hq & Hl & Hrows).
    repeat split; try assumption.
    + intros Hr. apply no_change_iff.
      destruct (_ =? 0) eqn:E; [apply Z.eqb_eq; exact E|discriminate Hr].
    + intros Hn. apply no_change_iff in Hn. rewrite Hn. reflexivity.
Qed.

Lemma lifecycle_frame_witness :
  (exists s',
     nth_error (students (fst (leave "2024-02-02" 1 None Sample.ledger))) 0
     = Some s' /\
     same_but_left_date Sample.asha s' /\
     left_date s' = Some "2024-02-02"%string) /\
  (exists s',
     nth_error (students (fst (reactivate 2 Sample.ledger))) 1 = Some s' /\
     same_but_left_date Sample.ben s' /\
     left_date s' = None).
Proof.
  split.
  - destruct (proj1 (lifecycle_frame "2024-02-02" 1 None Sample.ledger)
                _ _ eq_refl) as (_ & _ & _ & _ & Hrows).
    destruct (Hrows 0%nat Sample.asha eq_refl) as (s' & Hk & Hsame & _ & Hl).
    exists s'. split; [exact Hk|]. split; [exact Hsame|].
    apply Hl. reflexivity.
  - destruct (proj2 (lifecycle_frame "2024-02-02" 2 None Sample.ledger)
                _ _ eq_refl) as (_ & _ & _ & _ & Hrows).
    destruct (Hrows 1%nat Sample.ben eq_refl) as (s' & Hk & Hsame & _ & Hl).
    exists s'. split; [exact Hk|]. split; [exact Hsame|].
    apply Hl. reflexivity.
Defined.

End Lifecycle.

(** ** Deleting a study hall *)

Module Halls.
Import JS SQLite Server Spec SqlFacts.

Lemma find_hall_none hid halls :
  find (fun h => sh_id h =? hid) halls = None
  <-> forall h, In h halls -> sh_id h <> hid.
Proof.
  split.
  - intros H h Hh. apply Z.eqb_neq.
    exact (find_none _ _ H h Hh).
  - intros H. induction halls as [|h halls IH]; [reflexivity|].
    cbn [find]. destruct (Z.eqb_spec (sh_id h) hid) as [E|E].
    + exfalso. apply (H h); [left; reflexivity|exact E].
    + apply IH. intros h' Hh'. apply H. right. exact Hh'.
Qed.

(** The id is the primary key of [study_halls]: the hall with a given id
    is the row the subquery finds. *)
Lemma find_hall_key h halls :
  NoDup (map sh_id halls) -> In h halls ->
  find (fun h' => sh_id h' =? sh_id h) halls = Some h.
Proof.
  induction halls as [|h0 halls IH]; intros Hnd Hin; [destruct Hin|].
  cbn [find]. inversion Hnd as [|? ? Hnotin Hnd']; subst.
  destruct Hin as [->|Hin].
  - rewrite Z.eqb_refl. reflexivity.
  - destruct (Z.eqb_spec (sh_id h0) (sh_id h)) as [E|E].
    + exfalso. apply Hnotin. rewrite E. apply in_map. exact Hin.
    + apply IH; assumption.
Qed.

Lemma count_referencing hid db h :
  find (fun h' => sh_id h' =? hid) (study_halls db) = Some h ->
  sql_count (fun s => holds (text_eq (Some (hall s)) (hall_name_of hid db)))
            (students db)
  = Z.of_nat (List.length (students_of_hall (sh_name h) db)).
Proof.
  intros Hf. unfold hall_name_of, sql_count, students_of_hall.
  rewrite Hf. cbn [option_map text_eq]. do 2 f_equal.
  apply filter_ext. intros s. destruct (hall s =? sh_name h)%string;
    reflexivity.
Qed.

Lemma delete_referenced hid db h :
  find (fun h' => sh_id h' =? hid) (study_halls db) = Some h ->
  students_of_hall (sh_name h) db <> [] ->
  delete_study_halls hid db
  = (db, Error 400 "Cannot delete study hall with students assigned to it").
Proof.
  intros Hf Hne. unfold delete_study_halls.
  rewrite (count_referencing hid db h Hf).
  destruct (students_of_hall (sh_name h) db); [congruence|].
  reflexivity.
Qed.

Lemma delete_unreferenced hid db h :
  find (fun h' => sh_id h' =? hid) (study_halls db) = Some h ->
  students_of_hall (sh_name h) db = [] ->
  delete_study_halls hid db
  = ({| students := students db;
        study_halls := filter (fun h' => negb (sh_id h' =? hid))
                              (study_halls db);
        students_seq := students_seq db |},
     Json "Study hall deleted successfully"%string).
Proof.
  intros Hf He. unfold delete_study_halls.
  rewrite (count_referencing hid db h Hf), He. cbn [List.length Z.of_nat].
  cbn [Z.ltb Z.compare]. unfold sql_delete.
  destruct (filter (fun h' => sh_id h' =? hid) (study_halls db)) eqn:E.
  - exfalso. apply find_some in Hf. destruct Hf as [Hin Hid].
    assert (Hin' : In h (filter (fun h' => sh_id h' =? hid) (study_halls db)))
      by (apply filter_In; auto).
    rewrite E in Hin'. destruct Hin'.
  - reflexivity.
Qed.

Lemma delete_missing hid db :
  find (fun h' => sh_id h' =? hid) (study_halls db) = None ->
  delete_study_halls hid db = (db, Error 404 "Study hall not found").
Proof.
  intros Hf. unfold delete_study_halls, hall_name_of. rewrite Hf.
  cbn [option_map text_eq holds].
  replace (sql_count (fun _ => false) (students db)) with 0.
  2:{ symmetry. apply count_zero_iff. apply filter_nil_iff. reflexivity. }
  cbn [Z.ltb Z.compare]. unfold sql_delete.
  pose proof (proj1 (find_hall_none hid (study_halls db)) Hf) as Hno.
  replace (filter (fun h => sh_id h =? hid) (study_halls db)) with
    (@nil study_hall).
  2:{ symmetry. apply filter_nil_iff. intros h Hh. apply Z.eqb_neq.
      apply Hno. exact Hh. }
  replace (filter (fun h => negb (sh_id h =? hid)) (study_halls db)) with
    (study_halls db).
  2:{ symmetry. apply forallb_filter_id. apply forallb_forall.
      intros h Hh. apply negb_true_iff. apply Z.eqb_neq. apply Hno. exact Hh. }
  destruct db; reflexivity.
Qed.

Lemma students_of_hall_In nm db s :
  In s (students_of_hall nm db) <-> In s (students db) /\ hall s = nm.
Proof.
  unfold students_of_hall. rewrite filter_In, String.eqb_eq. reflexivity.
Qed.


Lemma delete_students_result sid db :
  delete_students sid db
  = (with_students db (filter (fun s => negb (id s =? sid)) (students db)),
     if Z.of_nat (List.length (filter (fun s => id s =? sid) (students db)))
        =? 0
     then Error 404 "Student not found"
     else Json "Student deleted successfully"%string).
Proof.
  unfold delete_students, sql_delete. destruct (_ =? 0); reflexivity.
Qed.

(** C9.  Deleting a study hall, the id being the primary key of the
    table: the reply is 400 (conflict) and the database is unchanged when
    a student names the hall; it is 404 (not found) when no hall has the
    id; otherwise the hall is deleted.  When one student names the hall,
    the deletion is refused, and once that student is deleted the same
    deletion goes through. *)
Theorem delete_study_hall_outcomes hid db :
  NoDup (map sh_id (study_halls db)) ->
  (forall h s, In h (study_halls db) -> sh_id h = hid ->
     In s (students db) -> hall s = sh_name h ->
     delete_study_halls hid db
     = (db, Error 400
              "Cannot delete study hall with students assigned to it")) /\
  ((forall h, In h (study_halls db) -> sh_id h <> hid) ->
     delete_study_halls hid db = (db, Error 404 "Study hall not found")) /\
  (forall h, In h (study_halls db) -> sh_id h = hid ->
     (forall s, In s (students db) -> hall s <> sh_name h) ->
     exists db',
       delete_study_halls hid db
       = (db', Json "Study hall deleted successfully"%string) /\
       students db' = students db /\
       forall h', In h' (study_halls db')
                  <-> In h' (study_halls db) /\ sh_id h' <> hid) /\
  (forall h s, In h (study_halls db) -> sh_id h = hid ->
     students_of_hall (sh_name h) db = [s] ->
     delete_study_halls hid db
     = (db, Error 400
              "Cannot delete study hall with students assigned to it") /\
     exists db1 db2,
       delete_students (id s) db
       = (db1, Json "Student deleted successfully"%string) /\
       delete_study_halls hid db1
       = (db2, Json "Study hall deleted successfully"%string) /\
       forall h', In h' (study_halls db2) -> sh_id h' <> hid).
Proof.
  intros Hkey.
  assert (Hfind : forall h, In h (study_halls db) -> sh_id h = hid ->
            find (fun h' => sh_id h' =? hid) (study_halls db) = Some h).
  { intros h Hh <-. apply find_hall_key; assumption. }
  split; [|split; [|split]].
  - intros h s Hh Hid Hs Hhall.
    apply (delete_referenced hid db h (Hfind h Hh Hid)).
    intros He.
    assert (Hin : In s (students_of_hall (sh_name h) db))
      by (apply students_of_hall_In; auto).
    rewrite He in Hin. destruct Hin.
  - intros Hno. apply delete_missing. apply find_hall_none. exact Hno.
  - intros h Hh Hid Hnone.
    assert (He : students_of_hall (sh_name h) db = []).
    { apply filter_nil_iff. intros s Hs. apply String.eqb_neq.
      apply Hnone. exact Hs. }
    rewrite (delete_unreferenced hid db h (Hfind h Hh Hid) He).
    eexists. split; [reflexivity|]. split; [reflexivity|].
    intros h'. cbn [study_halls]. rewrite filter_In, negb_true_iff, Z.eqb_neq.
    reflexivity.
  - intros h s Hh Hid Hone. split.
    + apply (delete_referenced hid db h (Hfind h Hh Hid)).
      rewrite Hone. discriminate.
    + assert (Hs : In s (students db) /\ hall s = sh_name h).
      { apply students_of_hall_In. rewrite Hone. left. reflexivity. }
      rewrite delete_students_result.
      destruct (_ =? 0) eqn:Ez.
      { exfalso. apply Z.eqb_eq in Ez.
        apply (proj1 (count_zero_iff _ _)) in Ez.
        pose proof (proj1 (filter_nil_iff _ _) Ez s (proj1 Hs)) as Hc.
        cbv beta in Hc. rewrite Z.eqb_refl in Hc. discriminate Hc. }
      set (db1 := with_students db _).
      assert (He : students_of_hall (sh_name h) db1 = []).
      { unfold students_of_hall, db1. cbn [with_students students].
        rewrite filter_comm. fold (students_of_hall (sh_name h) db).
        rewrite Hone. cbn [filter]. rewrite Z.eqb_refl. reflexivity. }
      exists db1. eexists. split; [reflexivity|]. split.
      * apply (delete_unreferenced hid db1 h); [|exact He].
        apply Hfind; assumption.
      * intros h'. cbn [study_halls].
        rewrite filter_In, negb_true_iff, Z.eqb_neq. tauto.
Qed.

Lemma delete_study_hall_outcomes_witness :
  delete_study_halls 2 Sample.ledger
  = (Sample.ledger,
     Error 400 "Cannot delete study hall with students assigned to it") /\
  exists db1 db2,
    delete_students 1 Sample.ledger
    = (db1, Json "Student deleted successfully"%string) /\
    delete_study_halls 2 db1
    = (db2, Json "Study hall deleted successfully"%string) /\
    forall h', In h' (study_halls db2) -> sh_id h' <> 2.
Proof.
  assert (Hkey : NoDup (map sh_id (study_halls Sample.ledger))).
  { cbn. repeat constructor; cbn; intuition discriminate. }
  apply (proj2 (proj2 (proj2 (delete_study_hall_outcomes 2 Sample.ledger
                                Hkey)))
           Sample.hall_a Sample.asha).
  - cbn. auto.
  - reflexivity.
  - reflexivity.
Defined.

End Halls.

(** ** Reports *)

(** ** Numbers: binary floating point and decimal texts *)

Module Numbers.
Import Digits JS SQLite Spec.

(** A Number holds every integer up to 2^53. *)
Lemma to_double_safe z : Z.abs z <= 2 ^ 53 -> to_double z = z.
Proof.
  intros Hz. unfold to_double.
  destruct (Z.leb_spec (Z.log2 (Z.abs z) - 52) 0) as [He|He];
    [reflexivity|].
  assert (Hpos : 0 < Z.abs z).
  { destruct (Z.abs z) eqn:E; try lia. cbn in He. lia. }
  pose proof (Z.log2_spec _ Hpos) as [Hlo _].
  assert (H53 : 2 ^ 53 <= 2 ^ Z.log2 (Z.abs z))
    by (apply Z.pow_le_mono_r; lia).
  assert (Ha : Z.abs z = 2 ^ 53) by lia.
  rewrite Ha. destruct (Z.abs_spec z) as [[_ E]|[_ E]].
  - rewrite <- E, Ha. reflexivity.
  - replace z with (- 2 ^ 53) by lia. reflexivity.
Qed.





(** *** Reading back a printed rate *)












End Numbers.

Module Reports.
Import JS SQLite Server Spec SqlFacts.


(** *** Upcoming fees *)






(** *** Fee collection *)


Lemma sql_sum_app {R : Type} (f : R -> Z) l1 l2 :
  sql_sum f (l1 ++ l2) = sql_sum f l1 + sql_sum f l2.
Proof.
  induction l1 as [|r l1 IH]; cbn [sql_sum fold_right app]; [reflexivity|].
  fold (sql_sum f (l1 ++ l2)). fold (sql_sum f l1). lia.
Qed.







(** *** The dashboard and the empty departure date *)

Lemma count_app {R : Type} (w : R -> bool) l1 l2 :
  sql_count w (l1 ++ l2) = sql_count w l1 + sql_count w l2.
Proof.
  unfold sql_count. rewrite filter_app, length_app. lia.
Qed.

Lemma count_cons {R : Type} (w : R -> bool) r l :
  sql_count w (r :: l) = (if w r then 1 else 0) + sql_count w l.
Proof.
  unfold sql_count. cbn [filter]. destruct (w r); cbn [List.length]; lia.
Qed.

Lemma empty_left_date_rows s :
  left_date s = Some ""%string ->
  dashboard_active s = true /\ dashboard_left s = false /\
  upcoming_where s = false /\ forall D, accrual_where D s = false.
Proof.
  intros H. unfold dashboard_active, dashboard_left, upcoming_where.
  rewrite H. split; [reflexivity|]. split; [reflexivity|]. split.
  - destruct (0 <? monthly_fee s); reflexivity.
  - intros D. apply Accrual.accrual_where_departed. rewrite H. discriminate.
Qed.

(** C10.  A student whose [left_date] is the empty text is counted by
    the dashboard as active, with the monthly fee in the active total,
    and not as departed; the accrual and the upcoming fees view pass the
    student over: taking the row out of the table changes the dashboard
    but neither the rows the accrual modifies nor the view. *)
Theorem empty_left_date_inconsistent db l1 s l2 D :
  students db = l1 ++ s :: l2 ->
  left_date s = Some ""%string ->
  let rest := with_students db (l1 ++ l2) in
  activeStudents (dashboard db) = activeStudents (dashboard rest) + 1 /\
  leftStudents (dashboard db) = leftStudents (dashboard rest) /\
  monthlyFeeTotal (dashboard db)
  = monthlyFeeTotal (dashboard rest) + monthly_fee s /\
  snd (calculate_monthly D db) = snd (calculate_monthly D rest) /\
  nth_error (students (fst (calculate_monthly D db))) (List.length l1)
  = Some s /\
  upcoming_fees db = upcoming_fees rest.
Proof.
  intros Hrows Hl rest.
  destruct (empty_left_date_rows s Hl) as (Ha & Hd & Hu & Hw).
  unfold dashboard, rest.
  cbn [activeStudents leftStudents monthlyFeeTotal with_students students].
  rewrite Hrows. repeat split.
  - rewrite !count_app, count_cons, Ha. lia.
  - rewrite !count_app, count_cons, Hd. lia.
  - rewrite !filter_app. cbn [filter]. rewrite Ha.
    rewrite !sql_sum_app. cbn [sql_sum fold_right].
    fold (sql_sum monthly_fee (filter dashboard_active l2)). lia.
  - rewrite !Accrual.accrual_result. cbn [snd with_students students].
    rewrite Hrows, !filter_app. cbn [filter]. rewrite (Hw D). reflexivity.
  - rewrite Accrual.accrual_nth, Hrows.
    rewrite nth_error_app2 by lia. rewrite Nat.sub_diag.
    cbn [nth_error option_map]. rewrite (Hw D). reflexivity.
  - unfold upcoming_fees. cbn [with_students students].
    rewrite Hrows, !filter_app. cbn [filter]. rewrite Hu. reflexivity.
Qed.

Lemma empty_left_date_inconsistent_witness :
  activeStudents (dashboard Sample.ledger)
  = activeStudents
      (dashboard (with_students Sample.ledger
                    [Sample.asha; Sample.ben; Sample.dev])) + 1 /\
  upcoming_fees Sample.ledger
  = upcoming_fees (with_students Sample.ledger
                     [Sample.asha; Sample.ben; Sample.dev]).
Proof.
  destruct (empty_left_date_inconsistent Sample.ledger
              [Sample.asha; Sample.ben] Sample.chen [Sample.dev]
              "2024-02-02"%string eq_refl eq_refl)
    as (Hactive & _ & _ & _ & _ & Hview).
  split; [exact Hactive|exact Hview].
Defined.

End Reports.

(** ** The examples of the specification *)

Module Examples.
Import JS SQLite Server Spec.

(** A student with a monthly fee of 500, a balance of 0 and no accrual
    yet: the accrual of 2024-02-02 sets the balance to 500, the stamp to
    that date and the status to 'Pending'. *)
Example accrual_first_cycle :
  nth_error (students (fst (calculate_monthly "2024-02-02" Sample.ledger))) 0
  = Some {| id := 1; name := "Asha"; cabin := "C1"; hall := "Hall A";
            phone := "555-0101"; fee_paid := 1000; fee_due := 500;
            status := "Pending";
            join_date := Some "2024-01-01"%string; left_date := None;
            monthly_fee := 500;
            last_fee_calculated_date := Some "2024-02-02"%string;
            created_at := "2024-01-01 09:00:00" |}.
Proof. reflexivity. Qed.

(** The balance given as 0 is stored with the status 'Paid'. *)
Example status_of_zero :
  status_of (JNum 0) = "Paid"%string /\ status_of (JStr "0") = "Paid"%string /\
  status_of (JNum (-5)) = "Pending"%string /\
  status_of JUndefined = "Pending"%string.
Proof. repeat split. Qed.

(** A hall without students is reported with the rate '0%'. *)
Example empty_hall_rate :
  nth_error (fee_collection Sample.ledger) 2
  = Some {| r_hall := "Hall C"; r_totalStudents := 0; r_feesCollected := 0;
            r_feesPending := 0; r_totalFeeAmount := 0;
            r_collectionRate := "0%" |}.
Proof. reflexivity. Qed.

Example hall_b_rate :
  option_map r_collectionRate (nth_error (fee_collection Sample.ledger) 1)
  = Some "92.3%"%string.
Proof. reflexivity. Qed.

(** The next fee date is the join date before the first accrual and one
    month after the stamp afterwards. *)
Example next_fee_date_joined :
  next_fee_date Sample.asha = Some "2024-01-01"%string.
Proof. reflexivity. Qed.

Example next_fee_date_stamped :
  date (Some "2024-03-10"%string) 1 = Some "2024-04-10"%string.
Proof. reflexivity. Qed.

(** The stamp is the date of the run: a student who joined on
    2024-03-10 and is charged by the run of that day is due again on
    2024-04-10. *)
Example next_fee_date_after_accrual :
  let s := {| id := 9; name := "Faye"; cabin := "C9"; hall := "Hall A";
              phone := "555-0109"; fee_paid := 0; fee_due := 0;
              status := "Paid";
              join_date := Some "2024-03-10"%string; left_date := None;
              monthly_fee := 500; last_fee_calculated_date := None;
              created_at := "2024-03-10 09:00:00" |} in
  next_fee_date s = Some "2024-03-10"%string /\
  accrual_where "2024-03-10" s = true /\
  next_fee_date (accrual_set "2024-03-10" s) = Some "2024-04-10"%string.
Proof. repeat split. Qed.

(** A day past the end of the month runs over into the next month. *)
Example date_overflow :
  date (Some "2024-03-31"%string) (-1) = Some "2024-03-02"%string /\
  date (Some "2023-01-31"%string) 1 = Some "2023-03-03"%string /\
  date (Some "2024-01-15"%string) (-1) = Some "2023-12-15"%string /\
  date (Some "2024-12-15"%string) 1 = Some "2025-01-15"%string.
Proof. repeat split. Qed.

Example parseInt_examples :
  parseInt (JStr "  -12abc") = Some (-12) /\
  parseInt (JStr "0x1f") = Some 31 /\
  parseInt (JStr "") = None /\
  parseInt JNull = None.
Proof. repeat split. Qed.

Example round_examples :
  round_percent_tenths 1 3 = 333 /\ round_percent_tenths 2 3 = 667 /\
  round_percent_tenths 1 80 = 13 /\
  string_of_tenths 667 = "66.7"%string /\
  string_of_tenths 1000 = "100"%string.
Proof. repeat split. Qed.

(** 1401 of 2000 is 70.05 percent, half way between two tenths; the
    binary quotient lies just below it and is rounded to 70. *)
Example round_half_way :
  fdiv 140100 2000 = (4929330529645363, -46) /\
  round_percent_tenths 1401 2000 = 700 /\
  round_percent_tenths 1 8 = 125 /\
  round_percent_tenths (-1) 3 = -333.
Proof. repeat split. Qed.

(** [parseInt] skips the blanks beyond ASCII, here a no-break space;
    reads a Number of 10^21 or more from its exponent notation, here
    '1e+21' and '1.9999999999999998e+25'; and gives the Number nearest
    to a long run of digits. *)
Example parseInt_numbers :
  parseInt (JStr (String (ascii_of_nat 194) (String (ascii_of_nat 160)
                                               "250")))
  = Some 250 /\
  parseInt (JNum (10 ^ 21)) = Some 1 /\
  parseInt (JNum 19999999999999997516972032) = Some 1 /\
  parseInt (JNum (10 ^ 21 - 2 ^ 17)) = Some (10 ^ 21 - 2 ^ 17) /\
  parseInt (JStr "9007199254740993") = Some 9007199254740992 /\
  parseInt (JNum 9007199254740993) = Some 9007199254740992 /\
  parseInt (JNum (2 ^ 1024)) = None /\
  status_of (JNum (10 ^ 21)) = "Pending"%string /\
  status_of (JStr "-0") = "Paid"%string.
Proof. repeat split. Qed.

(** The empty departure date: active for the dashboard, passed over by
    the accrual. *)
Example dashboard_sample :
  activeStudents (dashboard Sample.ledger) = 3 /\
  leftStudents (dashboard Sample.ledger) = 1 /\
  monthlyFeeTotal (dashboard Sample.ledger) = 1300 /\
  snd (calculate_monthly "2024-02-02" Sample.ledger) = Json 2.
Proof. repeat split. Qed.

End Examples.

(** ** Startup *)

Module StartupFacts.
Import Server Startup.

Lemma first_external_find addresses :
  first_external addresses
  = option_map address
      (find (fun i => String.eqb (family i) "IPv4" && negb (internal i))
            addresses).
Proof.
  induction addresses as [|i rest IH]; cbn [first_external find];
    [reflexivity|].
  destruct (String.eqb (family i) "IPv4" && negb (internal i));
    [reflexivity|exact IH].
Qed.

Lemma find_app {A : Type} (p : A -> bool) l1 l2 :
  find p (l1 ++ l2)
  = match find p l1 with
    | Some x => Some x
    | None => find p l2
    end.
Proof.
  induction l1 as [|x l1 IH]; cbn [find app]; [reflexivity|].
  destruct (p x); [reflexivity|exact IH].
Qed.

(** X1.  [getIPAddress] returns the address of the first interface
    entry, going through the names in order and through the addresses of
    each name in order, that is IPv4 and not internal; it returns
    'localhost' when there is none. *)
Theorem getIPAddress_first_external interfaces :
  getIPAddress interfaces
  = match find (fun i => String.eqb (family i) "IPv4" && negb (internal i))
               (List.concat (map snd interfaces)) with
    | Some i => address i
    | None => "localhost"%string
    end.
Proof.
  induction interfaces as [|[nm addresses] rest IH];
    cbn [getIPAddress map snd List.concat]; [reflexivity|].
  rewrite find_app, first_external_find.
  destruct (find _ addresses); cbn [option_map]; [reflexivity|exact IH].
Qed.

Lemma in_use_prefix fuel listen startPort n :
  (forall k, (k < n)%nat ->
     listen (startPort + Z.of_nat k) = ListenError "EADDRINUSE") ->
  (n <= fuel)%nat ->
  findAvailablePort fuel listen startPort
  = findAvailablePort (fuel - n) listen (startPort + Z.of_nat n).
Proof.
  revert fuel startPort.
  induction n as [|n IH]; intros fuel startPort Hbusy Hn.
  - rewrite Nat.sub_0_r, Z.add_0_r. reflexivity.
  - destruct fuel as [|fuel]; [lia|].
    cbn [findAvailablePort].
    pose proof (Hbusy 0%nat ltac:(lia)) as H0.
    rewrite Z.add_0_r in H0. rewrite H0. cbn [String.eqb Ascii.eqb Bool.eqb].
    rewrite (IH fuel (startPort + 1)).
    + replace (startPort + 1 + Z.of_nat n) with (startPort + Z.of_nat (S n))
        by lia.
      reflexivity.
    + intros k Hk.
      replace (startPort + 1 + Z.of_nat k) with (startPort + Z.of_nat (S k))
        by lia.
      apply Hbusy. lia.
    + lia.
Qed.

Lemma settled_after fuel listen startPort :
  match findAvailablePort fuel listen startPort with
  | Resolved port =>
      exists n, (n < fuel)%nat /\
        (forall k, (k < n)%nat ->
           listen (startPort + Z.of_nat k) = ListenError "EADDRINUSE") /\
        listen (startPort + Z.of_nat n) = Listening port
  | Rejected code =>
      exists n, (n < fuel)%nat /\
        (forall k, (k < n)%nat ->
           listen (startPort + Z.of_nat k) = ListenError "EADDRINUSE") /\
        listen (startPort + Z.of_nat n) = ListenError code /\
        code <> "EADDRINUSE"%string
  | Pending =>
      forall k, (k < fuel)%nat ->
        listen (startPort + Z.of_nat k) = ListenError "EADDRINUSE"
  end.
Proof.
  revert startPort. induction fuel as [|fuel IH]; intros startPort.
  - cbn [findAvailablePort]. intros k Hk. lia.
  - cbn [findAvailablePort].
    destruct (listen startPort) as [port|code] eqn:E.
    + exists 0%nat. rewrite Z.add_0_r. split; [lia|]. split; [|exact E].
      intros k Hk. lia.
    + destruct (String.eqb_spec code "EADDRINUSE") as [->|Hne].
      * assert (Hshift : forall k, startPort + 1 + Z.of_nat k
                                   = startPort + Z.of_nat (S k))
          by (intros; lia).
        assert (Hcons : forall n,
                  (forall k, (k < n)%nat ->
                     listen (startPort + 1 + Z.of_nat k)
                     = ListenError "EADDRINUSE") ->
                  forall k, (k < S n)%nat ->
                    listen (startPort + Z.of_nat k)
                    = ListenError "EADDRINUSE").
        { intros n Hn [|k] Hk.
          - rewrite Z.add_0_r. exact E.
          - rewrite <- Hshift. apply Hn. lia. }
        specialize (IH (startPort + 1)).
        destruct (findAvailablePort fuel listen (startPort + 1)).
        -- destruct IH as (n & Hn & Hbusy & Hl).
           exists (S n). split; [lia|]. split; [apply Hcons; exact Hbusy|].
           rewrite <- Hshift. exact Hl.
        -- destruct IH as (n & Hn & Hbusy & Hl & Hc).
           exists (S n). split; [lia|]. split; [apply Hcons; exact Hbusy|].
           rewrite <- Hshift. split; assumption.
        -- apply Hcons. exact IH.
      * exists 0%nat. rewrite Z.add_0_r. split; [lia|].
        split; [intros k Hk; lia|]. split; assumption.
Qed.

(** X2.  [findAvailablePort] settles on the first port, from the start
    port upwards, whose probe does not end in EADDRINUSE: when the [n]
    ports before it are in use and more than [n] probes are allowed, the
    promise resolves with the port that was bound there, or rejects with
    the error raised there; and a promise that resolved did so at such a
    port. *)
Theorem findAvailablePort_first_free fuel listen startPort n :
  (forall k, (k < n)%nat ->
     listen (startPort + Z.of_nat k) = ListenError "EADDRINUSE") ->
  (n < fuel)%nat ->
  (forall port, listen (startPort + Z.of_nat n) = Listening port ->
     findAvailablePort fuel listen startPort = Resolved port) /\
  (forall code, listen (startPort + Z.of_nat n) = ListenError code ->
     code <> "EADDRINUSE"%string ->
     findAvailablePort fuel listen startPort = Rejected code) /\
  (forall port, findAvailablePort fuel listen startPort = Resolved port ->
     exists m, (n <= m < fuel)%nat /\
       listen (startPort + Z.of_nat m) = Listening port /\
       forall k, (k < m)%nat ->
         listen (startPort + Z.of_nat k) = ListenError "EADDRINUSE").
Proof.
  intros Hbusy Hn.
  rewrite (in_use_prefix fuel listen startPort n Hbusy) by lia.
  destruct (fuel - n)%nat as [|rest] eqn:Efuel; [lia|].
  split; [|split].
  - intros port Hl. cbn [findAvailablePort]. rewrite Hl. reflexivity.
  - intros code Hl Hne. cbn [findAvailablePort]. rewrite Hl.
    apply String.eqb_neq in Hne. rewrite Hne. reflexivity.
  - intros port Hres. rewrite <- Efuel in Hres.
    rewrite <- (in_use_prefix fuel listen startPort n Hbusy) in Hres by lia.
    pose proof (settled_after fuel listen startPort) as Hs.
    rewrite Hres in Hs. destruct Hs as (m & Hm & Hb & Hl).
    exists m. split; [|split; assumption].
    split; [|exact Hm].
    destruct (Nat.le_gt_cases n m) as [Hle|Hgt]; [exact Hle|].
    rewrite (Hbusy m Hgt) in Hl. discriminate Hl.
Qed.

Lemma findAvailablePort_first_free_witness :
  findAvailablePort 10
    (fun port => if port <? 3002 then ListenError "EADDRINUSE"
                 else Listening port) 3000
  = Resolved 3002.
Proof.
  apply (proj1 (findAvailablePort_first_free 10
                  (fun port => if port <? 3002 then ListenError "EADDRINUSE"
                               else Listening port) 3000 2
                  ltac:(intros [|[|k]] Hk; [reflexivity|reflexivity|lia])
                  ltac:(lia))).
  reflexivity.
Defined.

(** X3.  [initializeDatabase] resolves unless [students] is missing
    while [study_halls] exists; in every case both tables exist
    afterwards, a table that existed keeps its rows and a table that was
    created is empty, and a second initialization resolves and changes
    nothing. *)
Theorem initializeDatabase_outcome d :
  let d' := fst (initializeDatabase d) in
  (snd (initializeDatabase d) = Resolved tt
   <-> ~ (students_table d = None /\ study_halls_table d <> None)) /\
  students_table d'
  = Some (match students_table d with Some rows => rows | None => [] end) /\
  study_halls_table d'
  = Some (match study_halls_table d with Some rows => rows | None => [] end) /\
  initializeDatabase d' = (d', Resolved tt).
Proof.
  destruct d as [[srows|] [hrows|]]; cbn;
    (split; [|split; [reflexivity|split; reflexivity]]); split.
  - intros _ [H _]. discriminate H.
  - reflexivity.
  - intros _ [H _]. discriminate H.
  - reflexivity.
  - intros H. discriminate H.
  - intros H. exfalso. apply H. split; [reflexivity|discriminate].
  - intros _ [_ H]. apply H. reflexivity.
  - reflexivity.
Qed.

End StartupFacts.

(** ** Students: creation, lookup, edit and deletion *)

Module StudentRoutes.
Import JS SQLite Server Spec SqlFacts Routes.

Lemma max_id_bound seq ids :
  seq <= fold_right Z.max seq ids /\
  forall x, In x ids -> x <= fold_right Z.max seq ids.
Proof.
  induction ids as [|i ids [IH1 IH2]]; cbn [fold_right].
  - split; [lia|]. intros x [].
  - split; [lia|]. intros x [->|Hx]; [lia|].
    specialize (IH2 x Hx). lia.
Qed.

Lemma next_student_id_fresh db :
  students_seq db < next_student_id db /\
  forall s, In s (students db) -> id s < next_student_id db.
Proof.
  unfold next_student_id.
  destruct (max_id_bound (students_seq db) (map id (students db)))
    as [H1 H2].
  split; [lia|]. intros s Hs.
  specialize (H2 (id s) (in_map id _ _ Hs)). lia.
Qed.

Lemma find_fresh_last rows (row : student) i :
  id row = i ->
  (forall s, In s rows -> id s < i) ->
  find (fun s => id s =? i) (rows ++ [row]) = Some row.
Proof.
  intros <- Hfresh. induction rows as [|s rows IH]; cbn [app find].
  - rewrite Z.eqb_refl. reflexivity.
  - replace (id s =? id row) with false.
    + apply IH. intros s' Hs'. apply Hfresh. right. exact Hs'.
    + symmetry. apply Z.eqb_neq.
      specialize (Hfresh s (or_introl eq_refl)). lia.
Qed.

(** The outcome of a creation whose four required fields are there. *)
Lemma post_students_accepted today now body db :
  truthy (req_name body) = true -> truthy (req_cabin body) = true ->
  truthy (req_hall body) = true -> truthy (req_phone body) = true ->
  post_students today now body db
  = (let row :=
       {| id := next_student_id db;
          name := text_of (req_name body);
          cabin := text_of (req_cabin body);
          hall := text_of (req_hall body);
          phone := text_of (req_phone body);
          fee_paid := parseInt_or_0 (feePaid body);
          fee_due := parseInt_or_0 (feeDue body);
          status := status_of (feeDue body);
          join_date := Some (or_else (joinDate body) today);
          left_date := None;
          monthly_fee := parseInt_or_0 (monthlyFee body);
          last_fee_calculated_date := None;
          created_at := now |} in
     ({| students := students db ++ [row];
         study_halls := study_halls db;
         students_seq := next_student_id db |},
      Json (next_student_id db))).
Proof.
  intros H1 H2 H3 H4. unfold post_students.
  rewrite H1, H2, H3, H4. reflexivity.
Qed.

Lemma post_students_inv today now body db db' i :
  post_students today now body db = (db', Json i) ->
  truthy (req_name body) = true /\ truthy (req_cabin body) = true /\
  truthy (req_hall body) = true /\ truthy (req_phone body) = true.
Proof.
  unfold post_students. intros H.
  destruct (truthy (req_name body)); [|discriminate H].
  destruct (truthy (req_cabin body)); [|discriminate H].
  destruct (truthy (req_hall body)); [|discriminate H].
  destruct (truthy (req_phone body)); [|discriminate H].
  auto.
Qed.

(** X4.  A creation is refused with the status 400, and the database
    left as it is, exactly when the name, the cabin, the hall or the
    phone is missing or empty.  Otherwise one row is appended and no
    other row changes; its id is above the counter and above every id in
    the table; it is active, has no accrual stamp, joins on the given
    date or today; the hall is taken as given, whether or not a study
    hall has that name. *)
Theorem post_students_outcome today now body db :
  let complete := truthy (req_name body) && truthy (req_cabin body)
                  && truthy (req_hall body) && truthy (req_phone body) in
  (complete = false ->
     exists error, post_students today now body db = (db, Error 400 error)) /\
  (complete = true ->
     exists row,
       post_students today now body db
       = ({| students := students db ++ [row];
             study_halls := study_halls db;
             students_seq := id row |}, Json (id row)) /\
       students_seq db < id row /\
       (forall s, In s (students db) -> id s < id row) /\
       hall row = text_of (req_hall body) /\
       join_date row = Some (or_else (joinDate body) today) /\
       left_date row = None /\
       last_fee_calculated_date row = None /\
       monthly_fee row = parseInt_or_0 (monthlyFee body)).
Proof.
  intros complete. subst complete. split.
  - intros H. unfold post_students.
    destruct (truthy (req_name body)); [|eexists; reflexivity].
    destruct (truthy (req_cabin body)); [|eexists; reflexivity].
    destruct (truthy (req_hall body)); [|eexists; reflexivity].
    destruct (truthy (req_phone body)); [|eexists; reflexivity].
    discriminate H.
  - intros H. apply andb_prop in H. destruct H as [H H4].
    apply andb_prop in H. destruct H as [H H3].
    apply andb_prop in H. destruct H as [H1 H2].
    rewrite (post_students_accepted today now body db H1 H2 H3 H4).
    destruct (next_student_id_fresh db) as [Hseq Hids]. cbv zeta.
    match goal with
    | |- context [students db ++ [?r]] => exists r
    end.
    split; [reflexivity|]. cbn [id hall join_date left_date
      last_fee_calculated_date monthly_fee]. repeat split; assumption.
Qed.

Lemma post_students_outcome_witness :
  exists row,
    post_students "2024-02-02" "2024-02-02 10:00:00" Sample.bare_body
                  Sample.ledger
    = ({| students := students Sample.ledger ++ [row];
          study_halls := study_halls Sample.ledger;
          students_seq := id row |}, Json (id row)) /\
    students_seq Sample.ledger < id row /\
    (forall s, In s (students Sample.ledger) -> id s < id row) /\
    hall row = text_of (req_hall Sample.bare_body) /\
    join_date row = Some (or_else (joinDate Sample.bare_body) "2024-02-02") /\
    left_date row = None /\
    last_fee_calculated_date row = None /\
    monthly_fee row = parseInt_or_0 (monthlyFee Sample.bare_body).
Proof.
  apply (proj2 (post_students_outcome "2024-02-02" "2024-02-02 10:00:00"
                  Sample.bare_body Sample.ledger)).
  reflexivity.
Defined.

(** X5.  The student a creation replies with can be read back: GET with
    the id of the reply returns the row that was stored, with the fields
    of the request, the three amounts being finite numbers. *)
Theorem post_then_get today now body db db' i :
  finite (parseInt_or_0 (feePaid body)) = true ->
  finite (parseInt_or_0 (feeDue body)) = true ->
  finite (parseInt_or_0 (monthlyFee body)) = true ->
  post_students today now body db = (db', Json i) ->
  exists row,
    get_student i db' = Json row /\ id row = i /\
    name row = text_of (req_name body) /\
    cabin row = text_of (req_cabin body) /\
    hall row = text_of (req_hall body) /\
    phone row = text_of (req_phone body) /\
    fee_paid row = parseInt_or_0 (feePaid body) /\
    fee_due row = parseInt_or_0 (feeDue body) /\
    monthly_fee row = parseInt_or_0 (monthlyFee body) /\
    created_at row = now.
Proof.
  intros _ _ _ H.
  destruct (post_students_inv _ _ _ _ _ _ H) as (H1 & H2 & H3 & H4).
  rewrite (post_students_accepted today now body db H1 H2 H3 H4) in H.
  cbv zeta in H. injection H as <- <-.
  eexists. split.
  - unfold get_student. cbn [students].
    erewrite find_fresh_last;
      [reflexivity|reflexivity|apply next_student_id_fresh].
  - cbn. repeat split.
Qed.

Lemma post_then_get_witness :
  exists row,
    get_student 5 (fst (post_students "2024-02-02" "2024-02-02 10:00:00"
                          Sample.full_body Sample.ledger)) = Json row /\
    id row = 5 /\ fee_paid row = 1000 /\ fee_due row = 250 /\
    monthly_fee row = 500 /\
    fee_due (last (students (fst (post_students "2024-02-02"
                                    "2024-02-02 10:00:00"
                                    Sample.padded_body Sample.ledger)))
                  Sample.asha) = 250.
Proof.
  destruct (post_then_get "2024-02-02" "2024-02-02 10:00:00"
              Sample.full_body Sample.ledger _ 5
              eq_refl eq_refl eq_refl eq_refl)
    as (row & Hget & Hid & _ & _ & _ & _ & Hpaid & Hdue & Hfee & _).
  exists row. split; [exact Hget|]. split; [exact Hid|].
  split; [exact Hpaid|]. split; [exact Hdue|]. split; [exact Hfee|].
  reflexivity.
Defined.


Lemma with_students_same db : with_students db (students db) = db.
Proof. destruct db; reflexivity. Qed.

Lemma filter_none_out (sid : Z) (rows : list student) :
  (forall s, In s rows -> id s <> sid) ->
  filter (fun s => negb (id s =? sid)) rows = rows.
Proof.
  intros H. apply forallb_filter_id. apply forallb_forall.
  intros s Hs. apply negb_true_iff. apply Z.eqb_neq. apply H. exact Hs.
Qed.

Lemma find_none_out (sid : Z) (rows : list student) :
  (forall s, In s rows -> id s <> sid) ->
  find (fun s => id s =? sid) rows = None.
Proof.
  intros H. induction rows as [|s rows IH]; [reflexivity|].
  cbn [find]. replace (id s =? sid) with false.
  - apply IH. intros s' Hs'. apply H. right. exact Hs'.
  - symmetry. apply Z.eqb_neq. apply H. left. reflexivity.
Qed.

Lemma filtered_out (sid : Z) (rows : list student) s :
  In s (filter (fun s => negb (id s =? sid)) rows) -> id s <> sid.
Proof.
  intros H. apply filter_In in H. destruct H as [_ H].
  apply negb_true_iff in H. apply Z.eqb_neq. exact H.
Qed.

(** X6.  A deletion removes the rows with the id and keeps every other
    row, the halls and the id counter; it replies 404, and changes
    nothing, exactly when no student has the id.  After a deletion the id
    is gone: reading it and deleting it again both reply 404. *)
Theorem delete_students_outcome sid db :
  let db' := fst (delete_students sid db) in
  let r := snd (delete_students sid db) in
  students db' = filter (fun s => negb (id s =? sid)) (students db) /\
  study_halls db' = study_halls db /\
  students_seq db' = students_seq db /\
  (r = Error 404 "Student not found"
   <-> forall s, In s (students db) -> id s <> sid) /\
  (r = Error 404 "Student not found" -> db' = db) /\
  (r <> Error 404 "Student not found" ->
   r = Json "Student deleted successfully"%string) /\
  get_student sid db' = Error 404 "Student not found" /\
  delete_students sid db' = (db', Error 404 "Student not found").
Proof.
  intros db' r. subst db' r. rewrite Halls.delete_students_result.
  cbn [fst snd with_students students study_halls students_seq].
  assert (Hiff : (if Z.of_nat (List.length
                      (filter (fun s => id s =? sid) (students db))) =? 0
                  then Error 404 "Student not found"
                  else Json "Student deleted successfully"%string)
                 = Error 404 "Student not found"
                 <-> forall s, In s (students db) -> id s <> sid).
  { rewrite <- Lifecycle.no_change_iff.
    destruct (Z.eqb_spec (Z.of_nat (List.length
                (filter (fun s => id s =? sid) (students db)))) 0);
      split; intros H; try reflexivity; try assumption; try discriminate H.
    contradiction. }
  split; [reflexivity|]. split; [reflexivity|]. split; [reflexivity|].
  split; [exact Hiff|]. split; [|split; [|split]].
  - intros H. rewrite filter_none_out by exact (proj1 Hiff H).
    apply with_students_same.
  - destruct (_ =? 0); [intros H; exfalso; apply H; reflexivity|reflexivity].
  - unfold get_student. cbn [with_students students].
    rewrite find_none_out; [reflexivity|]. apply filtered_out.
  - rewrite Halls.delete_students_result.
    cbn [with_students students study_halls students_seq].
    assert (Hgone : forall s,
              In s (filter (fun s => negb (id s =? sid)) (students db)) ->
              id s <> sid) by apply filtered_out.
    rewrite (proj2 (Lifecycle.no_change_iff sid
                      (filter (fun s => negb (id s =? sid)) (students db)))
                   Hgone).
    rewrite (filter_none_out sid _ Hgone). reflexivity.
Qed.

Lemma put_students_result sid body db :
  put_students sid body db
  = if negb (truthy (req_name body)) || negb (truthy (req_cabin body))
       || negb (truthy (req_hall body)) || negb (truthy (req_phone body))
       || is_undefined (feePaid body) || is_undefined (feeDue body)
    then (db, Error 400 "All fields are required")
    else
      (with_students db
         (map (fun s => if id s =? sid then set_student body s else s)
              (students db)),
       if Z.of_nat (List.length (filter (fun s => id s =? sid) (students db)))
          =? 0
       then Error 404 "Student not found"
       else Json "Student updated successfully"%string).
Proof.
  unfold put_students, sql_update.
  match goal with
  | |- context [if ?c then (db, Error 400 _) else _] => destruct c
  end; [reflexivity|].
  destruct (_ =? 0); reflexivity.
Qed.

Lemma map_none_in (sid : Z) (f : student -> student) rows :
  (forall s, In s rows -> id s <> sid) ->
  map (fun s => if id s =? sid then f s else s) rows = rows.
Proof.
  intros H. rewrite <- (map_id rows) at 2. apply map_ext_in.
  intros s Hs. replace (id s =? sid) with false; [reflexivity|].
  symmetry. apply Z.eqb_neq. apply H. exact Hs.
Qed.

(** X7.  An edit replies 400 when a required field is missing and 404
    when no student has the id, and changes nothing in both cases.  A
    successful edit rewrites the rows with the id and no other row; it
    keeps the id, the creation time and the accrual stamp of the row,
    and it overwrites the join date and the departure date with the
    request: without a (non-empty) [leftDate] the student is active
    again, and without a [joinDate] the join date becomes NULL. *)
Theorem put_students_outcome sid body db :
  let db' := fst (put_students sid body db) in
  let r := snd (put_students sid body db) in
  (r = Json "Student updated successfully"%string \/
   r = Error 400 "All fields are required" \/
   r = Error 404 "Student not found") /\
  (r <> Json "Student updated successfully"%string -> db' = db) /\
  study_halls db' = study_halls db /\
  students_seq db' = students_seq db /\
  (r = Json "Student updated successfully"%string ->
   forall k s, nth_error (students db) k = Some s ->
     exists s', nth_error (students db') k = Some s' /\
       (id s <> sid -> s' = s) /\
       (id s = sid ->
          id s' = sid /\ created_at s' = created_at s /\
          last_fee_calculated_date s' = last_fee_calculated_date s /\
          join_date s' = joinDate body /\
          left_date s' = match leftDate body with
                         | Some given =>
                             if String.eqb given "" then None else Some given
                         | None => None
                         end)).
Proof.
  intros db' r. subst db' r. rewrite put_students_result.
  match goal with
  | |- context [if ?c then (db, Error 400 _) else _] => destruct c
  end.
  { cbn [fst snd]. split; [auto|]. split; [reflexivity|].
    split; [reflexivity|]. split; [reflexivity|]. intros H. discriminate H. }
  cbn [fst snd with_students students study_halls students_seq].
  destruct (Z.eqb_spec (Z.of_nat (List.length
              (filter (fun s => id s =? sid) (students db)))) 0) as [E|E].
  - split; [auto|]. split.
    + intros _. rewrite map_none_in; [apply with_students_same|].
      apply Lifecycle.no_change_iff. exact E.
    + split; [reflexivity|]. split; [reflexivity|]. intros H. discriminate H.
  - split; [auto|]. split; [intros H; exfalso; apply H; reflexivity|].
    split; [reflexivity|]. split; [reflexivity|].
    intros _ k s Hk. rewrite nth_error_map, Hk. cbn [option_map].
    eexists. split; [reflexivity|].
    destruct (Z.eqb_spec (id s) sid) as [Hid|Hid].
    + split; [tauto|]. intros _. cbn. repeat split. exact Hid.
    + split; [reflexivity|tauto].
Qed.

Lemma put_students_outcome_witness :
  exists s',
    nth_error (students (fst (put_students 2 Sample.full_body Sample.ledger)))
              1 = Some s' /\
    left_date Sample.ben = Some "2024-01-20"%string /\
    left_date s' = None /\
    last_fee_calculated_date s' = last_fee_calculated_date Sample.ben.
Proof.
  destruct (proj2 (proj2 (proj2 (proj2
              (put_students_outcome 2 Sample.full_body Sample.ledger))))
              eq_refl 1%nat Sample.ben eq_refl)
    as (s' & Hk & _ & Hrow).
  destruct (Hrow eq_refl) as (_ & _ & Hstamp & _ & Hleft).
  exists s'. split; [exact Hk|]. split; [reflexivity|].
  split; [exact Hleft|exact Hstamp].
Defined.

Lemma set_left_date_twice d1 d2 s :
  set_left_date d2 (set_left_date d1 s) = set_left_date d2 s.
Proof. reflexivity. Qed.

Lemma set_left_date_same_value s :
  set_left_date (left_date s) s = s.
Proof. destruct s; reflexivity. Qed.

Lemma update_left_date_twice sid d1 d2 db :
  update_left_date sid d2 (update_left_date sid d1 db)
  = update_left_date sid d2 db.
Proof.
  unfold update_left_date, with_students.
  cbn [students study_halls students_seq].
  rewrite map_map. f_equal. apply map_ext. intros s.
  destruct (Z.eqb_spec (id s) sid) as [E|E].
  - cbn [set_left_date id]. rewrite (proj2 (Z.eqb_eq _ _) E). reflexivity.
  - rewrite (proj2 (Z.eqb_neq _ _) E). reflexivity.
Qed.

Lemma count_after_update sid d db :
  filter (fun s => id s =? sid) (students (update_left_date sid d db))
  = map (set_left_date d) (filter (fun s => id s =? sid) (students db)).
Proof.
  unfold update_left_date. cbn [with_students students].
  induction (students db) as [|s rows IH]; [reflexivity|].
  cbn [map filter]. destruct (Z.eqb_spec (id s) sid) as [E|E].
  - cbn [set_left_date id]. rewrite (proj2 (Z.eqb_eq _ _) E).
    cbn [map]. f_equal. exact IH.
  - rewrite (proj2 (Z.eqb_neq _ _) E). exact IH.
Qed.

(** X8.  Marking a student as left and reactivating the student
    afterwards gives the database and the reply that the reactivation
    alone gives; when the student was active before, the database is
    back as it was. *)
Theorem leave_then_reactivate today sid d db :
  reactivate sid (fst (leave today sid d db)) = reactivate sid db /\
  ((forall s, In s (students db) -> id s = sid -> left_date s = None) ->
   fst (reactivate sid (fst (leave today sid d db))) = db).
Proof.
  rewrite Lifecycle.leave_result. cbn [fst].
  rewrite !Lifecycle.reactivate_result.
  rewrite update_left_date_twice, count_after_update, length_map.
  split; [reflexivity|].
  intros Hactive. cbn [fst]. unfold update_left_date.
  replace (map _ (students db)) with (students db);
    [apply with_students_same|].
  rewrite <- (map_id (students db)) at 1. apply map_ext_in.
  intros s Hs. destruct (Z.eqb_spec (id s) sid) as [E|E]; [|reflexivity].
  rewrite <- (Hactive s Hs E). symmetry. apply set_left_date_same_value.
Qed.

Lemma leave_then_reactivate_witness :
  fst (reactivate 1 (fst (leave "2024-02-02" 1 None Sample.ledger)))
  = Sample.ledger.
Proof.
  apply (proj2 (leave_then_reactivate "2024-02-02" 1 None Sample.ledger)).
  intros s [<-|[<-|[<-|[<-|[]]]]]; cbn; intros H;
    try reflexivity; discriminate H.
Defined.

(** X9.  A student created with a positive monthly fee is charged by
    the next accrual run, whatever the date of the run and the join date
    are: the balance grows by the fee and the stamp is the date of the
    run.  A student created without a monthly fee, or with a fee that is
    not positive, is never charged.  The balance and the fee of the
    request are integers that a Number holds exactly. *)
Theorem new_student_first_accrual today now body db db' i D :
  safe_integer (parseInt_or_0 (feeDue body)) = true ->
  safe_integer (parseInt_or_0 (monthlyFee body)) = true ->
  post_students today now body db = (db', Json i) ->
  let k := List.length (students db) in
  exists row, nth_error (students db') k = Some row /\ id row = i /\
    (0 < parseInt_or_0 (monthlyFee body) ->
       exists row',
         nth_error (students (fst (calculate_monthly D db'))) k = Some row' /\
         fee_due row' = parseInt_or_0 (feeDue body)
                        + parseInt_or_0 (monthlyFee body) /\
         last_fee_calculated_date row' = Some D) /\
    (parseInt_or_0 (monthlyFee body) <= 0 ->
       nth_error (students (fst (calculate_monthly D db'))) k = Some row).
Proof.
  intros _ _ H k. subst k.
  destruct (post_students_inv _ _ _ _ _ _ H) as (H1 & H2 & H3 & H4).
  rewrite (post_students_accepted today now body db H1 H2 H3 H4) in H.
  cbv zeta in H. injection H as <- <-.
  eexists. split.
  { cbn [students]. rewrite nth_error_app2 by lia.
    rewrite Nat.sub_diag. reflexivity. }
  split; [reflexivity|]. split.
  - intros Hfee. rewrite Accrual.accrual_nth. cbn [students].
    rewrite nth_error_app2 by lia. rewrite Nat.sub_diag.
    cbn [nth_error option_map]. unfold accrual_where at 1.
    cbn [left_date monthly_fee last_fee_calculated_date is_null].
    apply Z.ltb_lt in Hfee. rewrite Hfee. cbn [sql_and sql_or holds].
    eexists. split; [reflexivity|]. split; reflexivity.
  - intros Hfee. rewrite Accrual.accrual_nth. cbn [students].
    rewrite nth_error_app2 by lia. rewrite Nat.sub_diag.
    cbn [nth_error option_map]. unfold accrual_where at 1.
    cbn [left_date monthly_fee last_fee_calculated_date is_null].
    replace (0 <? parseInt_or_0 (monthlyFee body)) with false
      by (symmetry; apply Z.ltb_ge; exact Hfee).
    reflexivity.
Qed.

Lemma new_student_first_accrual_witness :
  exists row,
    nth_error (students (fst (post_students "2024-02-02"
                                "2024-02-02 10:00:00" Sample.padded_body
                                Sample.ledger))) 4 = Some row /\
    id row = 5 /\
    exists row',
      nth_error
        (students (fst (calculate_monthly "2024-02-02"
                          (fst (post_students "2024-02-02"
                                  "2024-02-02 10:00:00" Sample.padded_body
                                  Sample.ledger))))) 4 = Some row' /\
      fee_due row' = 750.
Proof.
  destruct (new_student_first_accrual "2024-02-02" "2024-02-02 10:00:00"
              Sample.padded_body Sample.ledger _ 5 "2024-02-02"
              eq_refl eq_refl eq_refl)
    as (row & Hk & Hid & Hcharged & _).
  exists row. split; [exact Hk|]. split; [exact Hid|].
  destruct (Hcharged ltac:(cbn; lia)) as (row' & Hk' & Hdue & _).
  exists row'. split; [exact Hk'|exact Hdue].
Defined.

End StudentRoutes.

(** ** The accrual window and the summaries *)

Module Ledger.
Import JS SQLite Server Spec SqlFacts DateFacts Routes.

(** The date an accrual run compares the stamps with. *)
Lemma cutoff_date y m d :
  1 <= y <= 9999 -> 1 <= m <= 12 -> 1 <= d <= 31 ->
  date (Some (toISODate y m d)) (-1)
  = Some (render_date (normalize (add_months (-1) (y, m, d)))) /\
  printable (normalize (add_months (-1) (y, m, d))).
Proof.
  intros Hy Hm Hd. rewrite toISODate_render by lia.
  unfold date. rewrite parse_render by lia.
  pose proof (month_back_before y m d Hm Hd) as Hb.
  destruct (normalize (add_months (-1) (y, m, d))) as [[y' m'] d'].
  destruct Hb as (Hy' & Hm' & Hd' & _).
  replace (0 <=? y') with true by (symmetry; apply Z.leb_le; lia).
  replace (y' <=? 9999) with true by (symmetry; apply Z.leb_le; lia).
  cbn [andb]. split; [reflexivity|]. unfold printable. lia.
Qed.

(** X10.  An active student with a monthly fee who carries the stamp of
    an earlier run is charged by a run exactly when the stamp is strictly
    before the date of the run minus one month (in the calendar of
    SQLite, where a day past the end of the month runs over).  With the
    stamp 2024-02-02, the run of 2024-03-02 does not charge and the run
    of 2024-03-03 does. *)
Theorem accrual_window y m d y' m' d' s :
  0 <= y <= 9999 -> 1 <= m <= 12 -> 1 <= d <= 31 ->
  1 <= y' <= 9999 -> 1 <= m' <= 12 -> 1 <= d' <= 31 ->
  left_date s = None -> 0 < monthly_fee s ->
  last_fee_calculated_date s = Some (toISODate y m d) ->
  (accrual_where (toISODate y' m' d') s = true
   <-> date_key (y, m, d)
       < date_key (normalize (add_months (-1) (y', m', d')))).
Proof.
  intros Hy Hm Hd Hy' Hm' Hd' Hleft Hfee Hstamp.
  destruct (cutoff_date y' m' d' Hy' Hm' Hd') as [Hcut Hprint].
  unfold accrual_where. rewrite Hleft, Hstamp, Hcut.
  apply Z.ltb_lt in Hfee. rewrite Hfee.
  cbn [is_null sql_and sql_or text_lt holds].
  rewrite toISODate_render by lia. unfold String.ltb.
  rewrite render_date_compare by (try exact Hprint; unfold printable; lia).
  destruct (Z.compare_spec (date_key (y, m, d))
              (date_key (normalize (add_months (-1) (y', m', d')))));
    cbn [holds]; split; intros H0; try reflexivity; try discriminate H0; lia.
Qed.

Lemma accrual_window_witness :
  accrual_where "2024-03-02" (accrual_set "2024-02-02" Sample.asha) = false /\
  accrual_where "2024-03-03" (accrual_set "2024-02-02" Sample.asha) = true.
Proof.
  split.
  - destruct (accrual_where "2024-03-02"
                (accrual_set "2024-02-02" Sample.asha)) eqn:E;
      [|reflexivity].
    apply (accrual_window 2024 2 2 2024 3 2
             (accrual_set "2024-02-02" Sample.asha)) in E;
      try lia; try reflexivity.
    vm_compute in E. discriminate E.
  - apply (accrual_window 2024 2 2 2024 3 3
             (accrual_set "2024-02-02" Sample.asha));
      try lia; try reflexivity.
Defined.

Lemma sql_sum_cons {R : Type} (e : R -> Z) r rows :
  sql_sum e (r :: rows) = e r + sql_sum e rows.
Proof. reflexivity. Qed.









(** X12.  Every student an accrual run selects is on the upcoming fees
    view, and every student on the view who was never charged is
    selected by the next run, whatever its date is. *)
Theorem accrual_selects_upcoming D db s :
  In s (students db) ->
  (accrual_where D s = true ->
   In (s, next_fee_date s) (upcoming_fees db)) /\
  (In (s, next_fee_date s) (upcoming_fees db) ->
   last_fee_calculated_date s = None -> accrual_where D s = true).
Proof.
  intros Hs.
  assert (Hview : forall row, In row (upcoming_fees db) <->
            In row (map (fun s => (s, next_fee_date s))
                        (filter upcoming_where (students db)))).
  { intros row. unfold upcoming_fees. split; intros H.
    - eapply Permutation_in; [apply Permutation_sym, order_by_perm|exact H].
    - eapply Permutation_in; [apply order_by_perm|exact H]. }
  split.
  - intros Hw. apply Hview.
    apply (in_map (fun s => (s, next_fee_date s))). apply filter_In.
    split; [exact Hs|].
    apply Accrual.accrual_where_true in Hw. destruct Hw as (Hl & Hf & _).
    unfold upcoming_where. rewrite Hl. apply Z.ltb_lt in Hf. rewrite Hf.
    reflexivity.
  - intros Hin Hstamp. apply (proj1 (Hview _)) in Hin.
    apply in_map_iff in Hin. destruct Hin as (s0 & Heq & Hin).
    injection Heq as -> _. apply filter_In in Hin. destruct Hin as [_ Hu].
    unfold upcoming_where in Hu. unfold accrual_where. rewrite Hstamp.
    destruct (left_date s); [discriminate Hu|].
    destruct (0 <? monthly_fee s); [reflexivity|discriminate Hu].
Qed.

Lemma accrual_selects_upcoming_witness :
  In (Sample.dev, next_fee_date Sample.dev) (upcoming_fees Sample.ledger).
Proof.
  apply (proj1 (accrual_selects_upcoming "2024-02-02" Sample.ledger
                  Sample.dev ltac:(cbn; auto))).
  reflexivity.
Defined.

End Ledger.

(** ** Listings and summaries *)

Module Summaries.
Import JS SQLite Server Spec SqlFacts Routes.

Lemma string_compare_trans_lt a b c :
  String.compare a b = Lt -> String.compare b c = Lt ->
  String.compare a c = Lt.
Proof.
  exact (@RelationClasses.StrictOrder_Transitive _ _
           OrdersEx.String_as_OT.lt_strorder a b c).
Qed.


Lemma string_leb_trans a b c :
  String.leb a b = true -> String.leb b c = true -> String.leb a c = true.
Proof.
  unfold String.leb. intros Hab Hbc.
  destruct (String.compare a b) eqn:Eab; [| |discriminate Hab].
  - apply String.compare_eq_iff in Eab. subst b. exact Hbc.
  - destruct (String.compare b c) eqn:Ebc; [| |discriminate Hbc].
    + apply String.compare_eq_iff in Ebc. subst c. rewrite Eab. reflexivity.
    + rewrite (string_compare_trans_lt a b c Eab Ebc). reflexivity.
Qed.

Lemma sorted_split {A : Type} (R : A -> A -> Prop) l1 l2 :
  StronglySorted R (l1 ++ l2) ->
  forall a b, In a l1 -> In b l2 -> R a b.
Proof.
  induction l1 as [|x l1 IH]; intros Hs a b Ha Hb; [destruct Ha|].
  cbn [app] in Hs. inversion Hs as [|? ? Hs' Hall]; subst.
  destruct Ha as [->|Ha].
  - rewrite Forall_forall in Hall. apply Hall. apply in_or_app. right.
    exact Hb.
  - apply IH; assumption.
Qed.

(** X15.  The student listing holds every student once, newest first;
    the recent listing is its first five rows, all of it when there are
    at most five students, and no student that it leaves out was created
    after a student that it shows. *)
Theorem recent_students db :
  Permutation (get_students db) (students db) /\
  StronglySorted
    (fun a b => String.leb (created_at b) (created_at a) = true)
    (get_students db) /\
  List.length (get_students_recent db)
  = Nat.min 5 (List.length (students db)) /\
  (exists older, get_students db = get_students_recent db ++ older /\
     forall r s, In r (get_students_recent db) -> In s older ->
       String.leb (created_at s) (created_at r) = true).
Proof.
  set (R := fun a b : student =>
              String.leb (created_at b) (created_at a) = true).
  assert (Hperm : Permutation (get_students db) (students db))
    by (apply Permutation_sym, order_by_perm).
  assert (Hsorted : StronglySorted R (get_students db)).
  { apply Sorted_StronglySorted.
    - intros a b c Hab Hbc. unfold R in *.
      exact (string_leb_trans _ _ _ Hbc Hab).
    - apply (order_by_sorted
               (fun a b => String.leb (created_at b) (created_at a))).
      intros a b. apply String.leb_total. }
  split; [exact Hperm|]. split; [exact Hsorted|]. split.
  - unfold get_students_recent. rewrite length_firstn.
    rewrite (Permutation_length Hperm). reflexivity.
  - exists (skipn 5 (get_students db)). unfold get_students_recent.
    split; [symmetry; apply firstn_skipn|].
    intros r s Hr Hs.
    rewrite <- (firstn_skipn 5 (get_students db)) in Hsorted.
    exact (sorted_split R _ _ Hsorted r s Hr Hs).
Qed.

Lemma insert_by_map {A B : Type} (f : A -> B) (le : B -> B -> bool) x l :
  map f (insert_by (fun a b => le (f a) (f b)) x l)
  = insert_by le (f x) (map f l).
Proof.
  induction l as [|y l IH]; cbn [insert_by map]; [reflexivity|].
  destruct (le (f x) (f y)); cbn [map]; [reflexivity|].
  f_equal. exact IH.
Qed.

Lemma order_by_map {A B : Type} (f : A -> B) (le : B -> B -> bool) l :
  map f (order_by (fun a b => le (f a) (f b)) l) = order_by le (map f l).
Proof.
  induction l as [|x l IH]; [reflexivity|].
  cbn [map]. unfold order_by in *. cbn [fold_right].
  rewrite insert_by_map, IH. reflexivity.
Qed.

(** X22.  The fee collection report lists the halls in the order of the
    study hall listing, name by name. *)
Theorem report_follows_hall_listing db :
  map r_hall (fee_collection db) = map sh_name (get_study_halls db).
Proof.
  unfold fee_collection, collection_query, get_study_halls.
  rewrite map_map. cbn [format_row r_hall].
  rewrite (order_by_map q_hall String.leb).
  rewrite (order_by_map sh_name String.leb).
  rewrite map_map. reflexivity.
Qed.



Lemma count_all {R : Type} (rows : list R) :
  sql_count (fun _ => true) rows = Z.of_nat (List.length rows).
Proof.
  unfold sql_count. do 2 f_equal.
  apply forallb_filter_id. apply forallb_forall. reflexivity.
Qed.





Lemma fold_left_sum {R : Type} (e : R -> Z) rows acc :
  fold_left (fun sum row => sum + e row) rows acc = acc + sql_sum e rows.
Proof.
  revert acc. induction rows as [|r rows IH]; intros acc;
    cbn [fold_left]; [cbn; lia|].
  rewrite IH, Ledger.sql_sum_cons. lia.
Qed.

Lemma sum_perm {R : Type} (e : R -> Z) l l' :
  Permutation l l' -> sql_sum e l = sql_sum e l'.
Proof.
  induction 1 as [|x l l' _ IH|x y l|l l' l'' _ IH1 _ IH2].
  - reflexivity.
  - rewrite !Ledger.sql_sum_cons, IH. reflexivity.
  - rewrite !Ledger.sql_sum_cons. lia.
  - rewrite IH1. exact IH2.
Qed.

Lemma count_perm {R : Type} (p : R -> bool) l l' :
  Permutation l l' -> sql_count p l = sql_count p l'.
Proof.
  induction 1 as [|x l l' _ IH|x y l|l l' l'' _ IH1 _ IH2].
  - reflexivity.
  - rewrite !Reports.count_cons, IH. reflexivity.
  - rewrite !Reports.count_cons. lia.
  - rewrite IH1. exact IH2.
Qed.

Lemma sum_map {A R : Type} (e : R -> Z) (g : A -> Z) (f : A -> R) l :
  (forall a, e (f a) = g a) -> sql_sum e (map f l) = sql_sum g l.
Proof.
  intros H. induction l as [|a l IH]; [reflexivity|].
  cbn [map]. rewrite !Ledger.sql_sum_cons, H, IH. reflexivity.
Qed.

Lemma count_map {A R : Type} (p : R -> bool) (q : A -> bool) (f : A -> R) l :
  (forall a, p (f a) = q a) -> sql_count p (map f l) = sql_count q l.
Proof.
  intros H. induction l as [|a l IH]; [reflexivity|].
  cbn [map]. rewrite !Reports.count_cons, H, IH. reflexivity.
Qed.

Lemma num_or_0_id x : num_or_0 x = x.
Proof. unfold num_or_0. destruct (Z.eqb_spec x 0); congruence. Qed.

(** X14.  The fee debugging summary and the database check report the
    figures of the dashboard: the same number of students and halls, the
    same fees paid and pending, the same number of students with pending
    fees; the detailed rows are the students, one row each, by name.  The
    amounts of the ledger add up to less than 2^53, so that the sums the
    handler takes over Numbers and the sums of the database are both
    exact. *)
Theorem summaries_agree db :
  volume (students db) < 2 ^ 53 ->
  d_totalStudents (debug_fees db) = totalStudents (dashboard db) /\
  d_totalFeePaid (debug_fees db) = totalFees (dashboard db) /\
  d_totalFeeDue (debug_fees db) = pendingFees (dashboard db) /\
  d_studentsWithPendingFees (debug_fees db)
  = studentsWithPendingFees (dashboard db) /\
  studentsCount (db_check db) = totalStudents (dashboard db) /\
  studyHallsCount (db_check db) = totalHalls (dashboard db) /\
  Permutation (detailedData (debug_fees db))
              (map fee_row_of (students db)) /\
  Sorted (fun a b => String.leb (f_name a) (f_name b) = true)
         (detailedData (debug_fees db)).
Proof.
  intros _. unfold debug_fees, db_check, dashboard.
  cbn [d_totalStudents d_totalFeePaid d_totalFeeDue d_studentsWithPendingFees
       detailedData studentsCount studyHallsCount totalStudents totalFees
       pendingFees studentsWithPendingFees totalHalls].
  set (le := fun a b : fee_row => String.leb (f_name a) (f_name b)).
  set (rows := order_by le (map fee_row_of (students db))).
  assert (Hperm : Permutation rows (map fee_row_of (students db)))
    by (apply Permutation_sym, order_by_perm).
  rewrite !fold_left_sum.
  split; [|split; [|split; [|split; [|split; [|split; [|split]]]]]].
  - rewrite (Permutation_length Hperm), length_map, count_all.
    reflexivity.
  - rewrite (sum_perm _ _ _ Hperm). cbn [Z.add].
    apply sum_map. intros s. apply num_or_0_id.
  - rewrite (sum_perm _ _ _ Hperm). cbn [Z.add].
    apply sum_map. intros s. apply num_or_0_id.
  - change (sql_count (fun row => 0 <? num_or_0 (f_fee_due row)) rows
            = sql_count (fun s => 0 <? fee_due s) (students db)).
    rewrite (count_perm _ _ _ Hperm).
    apply count_map. intros s. rewrite num_or_0_id. reflexivity.
  - reflexivity.
  - reflexivity.
  - exact Hperm.
  - apply (order_by_sorted le). intros a b. apply String.leb_total.
Qed.

Lemma summaries_agree_witness :
  volume (students Sample.ledger) < 2 ^ 53 /\
  d_totalFeePaid (debug_fees Sample.ledger) = 2800 /\
  d_totalFeeDue (debug_fees Sample.ledger) = 150 /\
  map f_name (detailedData (debug_fees Sample.ledger))
  = ["Asha"; "Ben"; "Chen"; "Dev"]%string.
Proof.
  assert (Hvol : volume (students Sample.ledger) < 2 ^ 53)
    by (vm_compute; reflexivity).
  destruct (summaries_agree Sample.ledger Hvol) as (_ & Hpaid & Hdue & _).
  split; [exact Hvol|]. split; [exact Hpaid|]. split; [exact Hdue|].
  reflexivity.
Defined.


End Summaries.

(** ** The report against the ledger *)

Module ReportTotals.
Import JS SQLite Server Spec SqlFacts Routes.


Lemma existsb_name_false (halls : list study_hall) nm :
  ~ In nm (map sh_name halls) ->
  existsb (fun h => String.eqb (sh_name h) nm) halls = false.
Proof.
  intros Hn. induction halls as [|h halls IH]; [reflexivity|].
  cbn [existsb]. destruct (String.eqb_spec (sh_name h) nm) as [E|E].
  - exfalso. apply Hn. left. exact E.
  - apply IH. intros Hin. apply Hn. right. exact Hin.
Qed.







End ReportTotals.

(** ** Creating, renaming and deleting study halls *)

Module HallRoutes.
Import JS SQLite Server Spec SqlFacts Routes.

Lemma next_hall_id_fresh st :
  study_halls_seq st < next_hall_id st /\
  forall h, In h (study_halls (tables st)) -> sh_id h < next_hall_id st.
Proof.
  unfold next_hall_id.
  destruct (StudentRoutes.max_id_bound (study_halls_seq st)
              (map sh_id (study_halls (tables st)))) as [H1 H2].
  split; [lia|]. intros h Hh.
  specialize (H2 (sh_id h) (in_map sh_id _ _ Hh)). lia.
Qed.

Lemma find_fresh_hall rows (row : study_hall) i :
  sh_id row = i ->
  (forall h, In h rows -> sh_id h < i) ->
  find (fun h => sh_id h =? i) (rows ++ [row]) = Some row.
Proof.
  intros <- Hfresh. induction rows as [|h rows IH]; cbn [app find].
  - rewrite Z.eqb_refl. reflexivity.
  - replace (sh_id h =? sh_id row) with false.
    + apply IH. intros h' Hh'. apply Hfresh. right. exact Hh'.
    + symmetry. apply Z.eqb_neq.
      specialize (Hfresh h (or_introl eq_refl)). lia.
Qed.

Lemma name_taken_iff (halls : list study_hall) nm :
  existsb (fun h => String.eqb (sh_name h) nm) halls = true
  <-> exists h, In h halls /\ sh_name h = nm.
Proof.
  rewrite existsb_exists. split; intros (h & Hh & E); exists h;
    (split; [exact Hh|]); apply String.eqb_eq; exact E.
Qed.

(** X17.  A study hall is created only with a name, a capacity other
    than 0 and a location, and only when no hall has the name: the reply
    is 400 otherwise and nothing changes.  A hall that is created gets an
    id above the counter and above every id in the table, is appended
    after the halls there are, and is what GET returns for that id; the
    students are not touched. *)
Theorem post_study_halls_outcome now body st :
  let nm := text_of (hall_name body) in
  (hall_fields_missing body = true ->
     post_study_halls now body st
     = (st, Error 400 "Name, capacity, and location are required")) /\
  (hall_fields_missing body = false ->
     (exists h, In h (study_halls (tables st)) /\ sh_name h = nm) ->
     post_study_halls now body st
     = (st, Error 400 "Study hall with this name already exists")) /\
  (hall_fields_missing body = false ->
     (forall h, In h (study_halls (tables st)) -> sh_name h <> nm) ->
     exists row st',
       post_study_halls now body st = (st', Json (sh_id row)) /\
       study_halls (tables st') = study_halls (tables st) ++ [row] /\
       students (tables st') = students (tables st) /\
       study_halls_seq st' = sh_id row /\
       study_halls_seq st < sh_id row /\
       (forall h, In h (study_halls (tables st)) -> sh_id h < sh_id row) /\
       sh_name row = nm /\
       capacity row = num_of (hall_capacity body) /\
       get_study_hall (sh_id row) (tables st') = Json row).
Proof.
  intros nm. subst nm. unfold post_study_halls. split; [|split].
  - intros Hm. rewrite Hm. reflexivity.
  - intros Hm Htaken. rewrite Hm.
    rewrite (proj2 (name_taken_iff _ _) Htaken). reflexivity.
  - intros Hm Hfree. rewrite Hm.
    replace (existsb _ (study_halls (tables st))) with false.
    2:{ symmetry. apply ReportTotals.existsb_name_false.
        intros Hin. apply in_map_iff in Hin.
        destruct Hin as (h & E & Hh). exact (Hfree h Hh E). }
    destruct (next_hall_id_fresh st) as [Hseq Hids]. cbv zeta.
    match goal with
    | |- context [study_halls (tables st) ++ [?r]] => exists r
    end.
    eexists. split; [reflexivity|].
    cbn [with_halls tables study_halls students study_halls_seq sh_id
         sh_name capacity].
    repeat split; try assumption.
    unfold get_study_hall. cbn [study_halls].
    erewrite find_fresh_hall; [reflexivity|reflexivity|exact Hids].
Qed.

Lemma post_study_halls_outcome_witness :
  post_study_halls "2024-02-02 10:00:00"
    {| hall_name := Some "Hall A"%string; hall_capacity := Some 12;
       hall_location := Some "Roof"%string; hall_description := None |}
    {| tables := Sample.ledger; study_halls_seq := 3 |}
  = ({| tables := Sample.ledger; study_halls_seq := 3 |},
     Error 400 "Study hall with this name already exists").
Proof.
  apply (proj1 (proj2 (post_study_halls_outcome "2024-02-02 10:00:00"
                         {| hall_name := Some "Hall A"%string;
                            hall_capacity := Some 12;
                            hall_location := Some "Roof"%string;
                            hall_description := None |}
                         {| tables := Sample.ledger;
                            study_halls_seq := 3 |}))).
  - reflexivity.
  - exists Sample.hall_a. split; [cbn; auto|reflexivity].
Defined.

(** With the id as primary key, one row has the id of a hall of the
    table. *)
Lemma key_split (halls : list study_hall) h :
  NoDup (map sh_id halls) -> In h halls ->
  exists l1 l2, halls = l1 ++ h :: l2 /\
    (forall h', In h' l1 -> sh_id h' <> sh_id h) /\
    (forall h', In h' l2 -> sh_id h' <> sh_id h).
Proof.
  intros Hnd Hin. apply in_split in Hin. destruct Hin as (l1 & l2 & ->).
  exists l1, l2. split; [reflexivity|].
  rewrite map_app in Hnd. cbn [map] in Hnd.
  apply NoDup_remove_2 in Hnd.
  split; intros h' Hh' E; apply Hnd; apply in_or_app;
    [left|right]; rewrite <- E; apply in_map; exact Hh'.
Qed.

Lemma map_others (hid : Z) (f : study_hall -> study_hall) rows :
  (forall h, In h rows -> sh_id h <> hid) ->
  map (fun h => if sh_id h =? hid then f h else h) rows = rows.
Proof.
  intros H. rewrite <- (map_id rows) at 2. apply map_ext_in.
  intros h Hh. replace (sh_id h =? hid) with false; [reflexivity|].
  symmetry. apply Z.eqb_neq. apply H. exact Hh.
Qed.

Lemma count_others (hid : Z) (rows : list study_hall) :
  (forall h, In h rows -> sh_id h <> hid) ->
  sql_count (fun h => sh_id h =? hid) rows = 0.
Proof.
  intros H. apply count_zero_iff. apply filter_nil_iff.
  intros h Hh. apply Z.eqb_neq. apply H. exact Hh.
Qed.

Lemma existsb_others (hid : Z) nm (rows : list study_hall) :
  (forall h, In h rows -> sh_id h <> hid -> sh_name h <> nm) ->
  existsb (fun h => negb (sh_id h =? hid) && String.eqb (sh_name h) nm) rows
  = false.
Proof.
  intros H. induction rows as [|h rows IH]; [reflexivity|].
  cbn [existsb]. rewrite IH by (intros h' Hh'; apply H; right; exact Hh').
  destruct (Z.eqb_spec (sh_id h) hid) as [E|E]; [reflexivity|].
  cbn [negb andb]. rewrite orb_false_r. apply String.eqb_neq.
  apply H; [left; reflexivity|exact E].
Qed.

(** The outcome of renaming the hall [h], the one row with its id, when
    no other hall has the new name. *)
Lemma put_study_halls_renamed body st l1 h l2 :
  study_halls (tables st) = l1 ++ h :: l2 ->
  (forall h', In h' l1 -> sh_id h' <> sh_id h) ->
  (forall h', In h' l2 -> sh_id h' <> sh_id h) ->
  hall_fields_missing body = false ->
  (forall h', In h' (l1 ++ l2) -> sh_name h' <> text_of (hall_name body)) ->
  put_study_halls (sh_id h) body st
  = (with_halls st (l1 ++ set_hall body h :: l2) (study_halls_seq st),
     Json "Study hall updated successfully"%string).
Proof.
  intros Hrows H1 H2 Hm Hfree. unfold put_study_halls, rename_conflict.
  rewrite Hm, Hrows.
  assert (Hcount : sql_count (fun h' => sh_id h' =? sh_id h) (l1 ++ h :: l2)
                   = 1).
  { rewrite Reports.count_app, Reports.count_cons, Z.eqb_refl.
    rewrite (count_others _ _ H1), (count_others _ _ H2). reflexivity. }
  rewrite Hcount. cbn [Z.leb Z.compare andb orb].
  rewrite existsb_others.
  2:{ intros h' Hh' Hid. apply Hfree. apply in_app_or in Hh'.
      apply in_or_app. destruct Hh' as [Hh'|[->|Hh']]; auto.
      exfalso. apply Hid. reflexivity. }
  cbn [orb]. unfold sql_update. fold (sql_count (fun h' => sh_id h' =? sh_id h)
                                        (l1 ++ h :: l2)).
  rewrite Hcount. cbn [Z.eqb]. rewrite map_app. cbn [map].
  rewrite Z.eqb_refl, (map_others _ _ _ H1), (map_others _ _ _ H2).
  reflexivity.
Qed.

(** X18.  Renaming a study hall does not touch the students: they keep
    the old name of the hall in their [hall] column.  When no hall and no
    student has the new name, the renamed hall can be deleted at once,
    whatever number of students still names it by its old name. *)
Theorem rename_orphans_students body st h :
  NoDup (map sh_id (study_halls (tables st))) ->
  In h (study_halls (tables st)) ->
  hall_fields_missing body = false ->
  (forall h', In h' (study_halls (tables st)) ->
     sh_name h' <> text_of (hall_name body)) ->
  (forall s, In s (students (tables st)) ->
     hall s <> text_of (hall_name body)) ->
  exists st' db2,
    put_study_halls (sh_id h) body st
    = (st', Json "Study hall updated successfully"%string) /\
    students (tables st') = students (tables st) /\
    get_study_hall (sh_id h) (tables st') = Json (set_hall body h) /\
    delete_study_halls (sh_id h) (tables st')
    = (db2, Json "Study hall deleted successfully"%string) /\
    students db2 = students (tables st).
Proof.
  intros Hkey Hin Hm Hfree Hstudents.
  destruct (key_split _ h Hkey Hin) as (l1 & l2 & Hrows & H1 & H2).
  assert (Hfree' : forall h', In h' (l1 ++ l2) ->
                     sh_name h' <> text_of (hall_name body)).
  { intros h' Hh'. apply Hfree. rewrite Hrows. apply in_app_or in Hh'.
    apply in_or_app. destruct Hh'; [left|right; right]; assumption. }
  rewrite (put_study_halls_renamed body st l1 h l2 Hrows H1 H2 Hm Hfree').
  set (st' := with_halls st (l1 ++ set_hall body h :: l2)
                         (study_halls_seq st)).
  assert (Hfind : find (fun h' => sh_id h' =? sh_id h)
                       (study_halls (tables st'))
                  = Some (set_hall body h)).
  { unfold st'. cbn [with_halls tables study_halls].
    rewrite StartupFacts.find_app.
    replace (find _ l1) with (@None study_hall).
    - cbn [find set_hall sh_id]. rewrite Z.eqb_refl. reflexivity.
    - symmetry. apply Halls.find_hall_none. exact H1. }
  assert (Hnone : students_of_hall (sh_name (set_hall body h)) (tables st')
                  = []).
  { apply filter_nil_iff. intros s Hs. apply String.eqb_neq.
    apply Hstudents. exact Hs. }
  exists st'. eexists. split; [reflexivity|]. split; [reflexivity|].
  split; [unfold get_study_hall; rewrite Hfind; reflexivity|].
  split.
  - apply (Halls.delete_unreferenced (sh_id h) (tables st')
             (set_hall body h) Hfind Hnone).
  - reflexivity.
Qed.

Lemma rename_orphans_students_witness :
  exists st' db2,
    put_study_halls 2
      {| hall_name := Some "Hall Z"%string; hall_capacity := Some 25;
         hall_location := Some "Ground floor"%string;
         hall_description := None |}
      {| tables := Sample.ledger; study_halls_seq := 3 |}
    = (st', Json "Study hall updated successfully"%string) /\
    students (tables st') = students Sample.ledger /\
    delete_study_halls 2 (tables st')
    = (db2, Json "Study hall deleted successfully"%string) /\
    In Sample.asha (students db2) /\ hall Sample.asha = "Hall A"%string.
Proof.
  destruct (rename_orphans_students
              {| hall_name := Some "Hall Z"%string; hall_capacity := Some 25;
                 hall_location := Some "Ground floor"%string;
                 hall_description := None |}
              {| tables := Sample.ledger; study_halls_seq := 3 |}
              Sample.hall_a)
    as (st' & db2 & Hput & Hst & _ & Hdel & Hdb2).
  - cbn. repeat constructor; cbn; intuition discriminate.
  - cbn. auto.
  - reflexivity.
  - intros h' [<-|[<-|[<-|[]]]]; cbn; discriminate.
  - intros s [<-|[<-|[<-|[<-|[]]]]]; cbn; discriminate.
  - exists st', db2. split; [exact Hput|]. split; [exact Hst|].
    split; [exact Hdel|]. split; [|reflexivity].
    rewrite Hdb2. cbn. auto.
Defined.

End HallRoutes.

(** ** The keys of the schema, through every request *)

Module Keys.
Import JS SQLite Server Spec SqlFacts Routes.

Lemma NoDup_map_filter {A B : Type} (f : A -> B) (p : A -> bool) l :
  NoDup (map f l) -> NoDup (map f (filter p l)).
Proof.
  induction l as [|x l IH]; cbn [map filter]; intros Hnd; [exact Hnd|].
  inversion Hnd as [|? ? Hnotin Hnd']; subst.
  destruct (p x); [|apply IH; exact Hnd'].
  cbn [map]. constructor; [|apply IH; exact Hnd'].
  intros Hin. apply Hnotin. apply in_map_iff in Hin.
  destruct Hin as (y & E & Hy). apply filter_In in Hy.
  rewrite <- E. apply in_map. tauto.
Qed.

Lemma Forall_filter {A : Type} (P : A -> Prop) (p : A -> bool) l :
  Forall P l -> Forall P (filter p l).
Proof.
  rewrite !Forall_forall. intros H x Hx. apply filter_In in Hx.
  apply H. tauto.
Qed.

Lemma map_id_update (w : student -> bool) (g : student -> student) rows :
  (forall s, id (g s) = id s) ->
  map id (map (fun s => if w s then g s else s) rows) = map id rows.
Proof.
  intros Hg. rewrite map_map. apply map_ext. intros s.
  destruct (w s); [apply Hg|reflexivity].
Qed.

(** A handler that keeps the ids of the students, the halls and the
    counters keeps the keys. *)
Lemma keys_same_ids st db' :
  map id (students db') = map id (students (tables st)) ->
  study_halls db' = study_halls (tables st) ->
  students_seq db' = students_seq (tables st) ->
  keys_hold st -> keys_hold (on_tables st db').
Proof.
  intros Hids Hhalls Hseq (K1 & K2 & K3 & K4 & K5).
  unfold keys_hold, on_tables. cbn [tables study_halls_seq].
  rewrite Hhalls, Hseq.
  split; [rewrite Hids; exact K1|]. repeat split; try assumption.
  apply (proj1 (Forall_map id (fun i => i <= students_seq (tables st))
                  (students db'))).
  rewrite Hids. apply Forall_map. exact K4.
Qed.

Lemma keys_post_student today now body st :
  keys_hold st ->
  keys_hold (on_tables st (fst (post_students today now body (tables st)))).
Proof.
  intros (K1 & K2 & K3 & K4 & K5).
  destruct (truthy (req_name body) && truthy (req_cabin body)
            && truthy (req_hall body) && truthy (req_phone body)) eqn:E.
  - apply andb_prop in E. destruct E as [E H4].
    apply andb_prop in E. destruct E as [E H3].
    apply andb_prop in E. destruct E as [H1 H2].
    rewrite (StudentRoutes.post_students_accepted today now body _
               H1 H2 H3 H4).
    destruct (StudentRoutes.next_student_id_fresh (tables st))
      as [Hseq Hfresh].
    unfold keys_hold, on_tables.
    cbn [fst tables students study_halls students_seq study_halls_seq].
    repeat split; try assumption.
    + rewrite map_app. cbn [map id]. apply Permutation_NoDup with
        (l := next_student_id (tables st) :: map id (students (tables st))).
      * apply Permutation_cons_append.
      * constructor; [|exact K1]. intros Hin. apply in_map_iff in Hin.
        destruct Hin as (s & Eid & Hs). specialize (Hfresh s Hs). lia.
    + apply Forall_app. split.
      * rewrite Forall_forall. intros s Hs. specialize (Hfresh s Hs). lia.
      * constructor; [cbn [id]; lia|constructor].
  - assert (Hsame : fst (post_students today now body (tables st))
                    = tables st).
    { unfold post_students.
      destruct (truthy (req_name body)); [|reflexivity].
      destruct (truthy (req_cabin body)); [|reflexivity].
      destruct (truthy (req_hall body)); [|reflexivity].
      destruct (truthy (req_phone body)); [|reflexivity].
      discriminate E. }
    rewrite Hsame. destruct st. unfold keys_hold, on_tables.
    cbn [tables study_halls_seq] in *. repeat split; assumption.
Qed.

Lemma keys_delete_student sid st :
  keys_hold st ->
  keys_hold (on_tables st (fst (delete_students sid (tables st)))).
Proof.
  intros (K1 & K2 & K3 & K4 & K5).
  rewrite Halls.delete_students_result.
  unfold keys_hold, on_tables.
  cbn [fst tables with_students students study_halls students_seq
       study_halls_seq].
  repeat split; try assumption.
  - apply NoDup_map_filter. exact K1.
  - apply Forall_filter. exact K4.
Qed.

Lemma keys_delete_hall hid st :
  keys_hold st ->
  keys_hold (on_tables st (fst (delete_study_halls hid (tables st)))).
Proof.
  intros (K1 & K2 & K3 & K4 & K5). unfold delete_study_halls.
  destruct (0 <? _).
  - destruct st. unfold keys_hold, on_tables.
    cbn [fst tables study_halls_seq] in *. repeat split; assumption.
  - unfold sql_delete. destruct (_ =? 0);
      unfold keys_hold, on_tables;
      cbn [fst tables students study_halls students_seq study_halls_seq];
      repeat split; try assumption;
      try (apply NoDup_map_filter; assumption);
      apply Forall_filter; exact K5.
Qed.

Lemma keys_post_hall now body st :
  keys_hold st -> keys_hold (fst (post_study_halls now body st)).
Proof.
  intros K. unfold post_study_halls.
  destruct (hall_fields_missing body); [exact K|].
  destruct (existsb _ (study_halls (tables st))) eqn:E; [exact K|].
  destruct K as (K1 & K2 & K3 & K4 & K5).
  destruct (HallRoutes.next_hall_id_fresh st) as [Hseq Hfresh].
  unfold keys_hold.
  cbn [fst with_halls tables students study_halls students_seq
       study_halls_seq].
  repeat split; try assumption.
  - rewrite map_app. cbn [map sh_id].
    apply Permutation_NoDup with
      (l := next_hall_id st :: map sh_id (study_halls (tables st))).
    + apply Permutation_cons_append.
    + constructor; [|exact K2]. intros Hin. apply in_map_iff in Hin.
      destruct Hin as (h & Eid & Hh). specialize (Hfresh h Hh). lia.
  - rewrite map_app. cbn [map sh_name].
    apply Permutation_NoDup with
      (l := text_of (hall_name body)
            :: map sh_name (study_halls (tables st))).
    + apply Permutation_cons_append.
    + constructor; [|exact K3]. intros Hin. apply in_map_iff in Hin.
      destruct Hin as (h & Ename & Hh).
      assert (Ht : existsb (fun h => String.eqb (sh_name h)
                                       (text_of (hall_name body)))
                           (study_halls (tables st)) = true).
      { apply HallRoutes.name_taken_iff. exists h. auto. }
      rewrite E in Ht. discriminate Ht.
  - apply Forall_app. split.
    + rewrite Forall_forall. intros h Hh. specialize (Hfresh h Hh). lia.
    + constructor; [cbn [sh_id]; lia|constructor].
Qed.


Lemma others_free (hid : Z) nm (rows : list study_hall) :
  existsb (fun h => negb (sh_id h =? hid) && String.eqb (sh_name h) nm) rows
  = false ->
  forall h, In h rows -> sh_id h <> hid -> sh_name h <> nm.
Proof.
  intros E h Hh Hid Hname.
  assert (Ht : existsb (fun h => negb (sh_id h =? hid)
                                 && String.eqb (sh_name h) nm) rows = true).
  { apply existsb_exists. exists h. split; [exact Hh|].
    apply andb_true_intro. split.
    - apply negb_true_iff. apply Z.eqb_neq. exact Hid.
    - apply String.eqb_eq. exact Hname. }
  rewrite E in Ht. discriminate Ht.
Qed.

Lemma not_in_names nm (rows : list study_hall) :
  (forall h, In h rows -> sh_name h <> nm) -> ~ In nm (map sh_name rows).
Proof.
  intros H Hin. apply in_map_iff in Hin. destruct Hin as (h & E & Hh).
  exact (H h Hh E).
Qed.

Lemma keys_put_hall hid body st :
  keys_hold st -> keys_hold (fst (put_study_halls hid body st)).
Proof.
  intros K. unfold put_study_halls.
  destruct (hall_fields_missing body); [exact K|].
  destruct (rename_conflict hid (text_of (hall_name body))
              (study_halls (tables st))) eqn:Econf; [exact K|].
  destruct K as (K1 & K2 & K3 & K4 & K5).
  assert (Hrows : fst (let '(rows, changes) :=
                         sql_update (fun h => sh_id h =? hid) (set_hall body)
                                    (study_halls (tables st)) in
                       if changes =? 0
                       then (with_halls st rows (study_halls_seq st),
                             Error 404 "Study hall not found")
                       else (with_halls st rows (study_halls_seq st),
                             Json "Study hall updated successfully"%string))
                  = with_halls st
                      (map (fun h => if sh_id h =? hid then set_hall body h
                                     else h)
                           (study_halls (tables st)))
                      (study_halls_seq st)).
  { unfold sql_update. destruct (_ =? 0); reflexivity. }
  rewrite Hrows. clear Hrows.
  assert (Hids : map sh_id
                   (map (fun h => if sh_id h =? hid then set_hall body h
                                  else h)
                        (study_halls (tables st)))
                 = map sh_id (study_halls (tables st))).
  { rewrite map_map. apply map_ext. intros h.
    destruct (sh_id h =? hid); reflexivity. }
  unfold keys_hold.
  cbn [with_halls tables students study_halls students_seq study_halls_seq].
  split; [exact K1|]. split; [rewrite Hids; exact K2|].
  split; [|split; [exact K4|]].
  - destruct (find (fun h => sh_id h =? hid) (study_halls (tables st)))
      as [h|] eqn:Efind.
    + apply find_some in Efind. destruct Efind as [Hin Hid].
      apply Z.eqb_eq in Hid. subst hid.
      destruct (HallRoutes.key_split _ h K2 Hin)
        as (l1 & l2 & Hsplit & H1 & H2).
      rewrite Hsplit in *. unfold rename_conflict in Econf.
      apply orb_false_elim in Econf. destruct Econf as [Econf _].
      rewrite Reports.count_app, Reports.count_cons, Z.eqb_refl in Econf.
      rewrite (HallRoutes.count_others _ _ H1),
              (HallRoutes.count_others _ _ H2) in Econf.
      cbn [Z.add Z.leb Z.compare andb] in Econf.
      pose proof (others_free _ _ _ Econf) as Hfree.
      rewrite map_app. cbn [map]. rewrite Z.eqb_refl.
      rewrite (HallRoutes.map_others _ _ _ H1),
              (HallRoutes.map_others _ _ _ H2).
      rewrite map_app. cbn [map set_hall sh_name].
      rewrite map_app in K3. cbn [map] in K3.
      apply NoDup_remove_1 in K3.
      apply Permutation_NoDup with
        (l := text_of (hall_name body)
              :: (map sh_name l1 ++ map sh_name l2)).
      * apply Permutation_middle.
      * constructor; [|exact K3]. intros Hin'.
        apply in_app_or in Hin'. destruct Hin' as [Hin'|Hin'].
        -- revert Hin'. apply not_in_names. intros h' Hh'.
           apply Hfree; [apply in_or_app; left; exact Hh'|].
           apply H1. exact Hh'.
        -- revert Hin'. apply not_in_names. intros h' Hh'.
           apply Hfree; [apply in_or_app; right; right; exact Hh'|].
           apply H2. exact Hh'.
    + rewrite HallRoutes.map_others; [exact K3|].
      apply Halls.find_hall_none. exact Efind.
  - apply (proj1 (Forall_map sh_id (fun i => i <= study_halls_seq st) _)).
    rewrite Hids. apply Forall_map. exact K5.
Qed.

(** X19.  The keys of the schema hold after every request when they
    held before it: no two students and no two halls share an id, no two
    halls share a name, and the AUTOINCREMENT counters are at or above
    every id.  They hold in a fresh installation, and so after any
    sequence of requests to it. *)
Theorem keys_preserved requests st :
  (keys_hold st -> keys_hold (handle_all requests st)) /\
  keys_hold (handle_all requests fresh).
Proof.
  assert (Hstep : forall r st0, keys_hold st0 -> keys_hold (handle r st0)).
  { intros r st0 K. destruct r; cbn [handle].
    - apply keys_post_student. exact K.
    - rewrite StudentRoutes.put_students_result.
      match goal with
      | |- context [if ?c then (tables st0, Error 400 _) else _] =>
          destruct c
      end.
      + destruct st0. exact K.
      + apply keys_same_ids; [|reflexivity|reflexivity|exact K].
        cbn [fst with_students students]. apply map_id_update.
        reflexivity.
    - apply keys_delete_student. exact K.
    - apply keys_same_ids; [|reflexivity|reflexivity|exact K].
      rewrite Accrual.accrual_result. cbn [fst with_students students].
      apply map_id_update. reflexivity.
    - apply keys_same_ids; [|rewrite Lifecycle.leave_result; reflexivity
                            |rewrite Lifecycle.leave_result; reflexivity
                            |exact K].
      rewrite Lifecycle.leave_result. cbn [fst]. unfold update_left_date.
      cbn [with_students students]. apply map_id_update. reflexivity.
    - apply keys_same_ids; [|rewrite Lifecycle.reactivate_result; reflexivity
                            |rewrite Lifecycle.reactivate_result; reflexivity
                            |exact K].
      rewrite Lifecycle.reactivate_result. cbn [fst].
      unfold update_left_date. cbn [with_students students].
      apply map_id_update. reflexivity.
    - apply keys_post_hall. exact K.
    - apply keys_put_hall. exact K.
    - apply keys_delete_hall. exact K. }
  assert (Hall : forall rs st0, keys_hold st0 ->
                                keys_hold (handle_all rs st0)).
  { induction rs as [|r rs IH]; intros st0 K; [exact K|].
    cbn [handle_all fold_left]. apply IH. apply Hstep. exact K. }
  split; [apply Hall|]. apply Hall.
  unfold keys_hold, fresh. cbn. repeat split; constructor.
Qed.

Lemma keys_preserved_witness :
  keys_hold
    (handle_all [CalculateMonthly "2024-02-02"; DeleteStudent 2;
                 PostStudent "2024-02-03" "2024-02-03 09:00:00"
                             Sample.full_body]
                {| tables := Sample.ledger; study_halls_seq := 3 |}).
Proof.
  apply (proj1 (keys_preserved
                  [CalculateMonthly "2024-02-02"; DeleteStudent 2;
                   PostStudent "2024-02-03" "2024-02-03 09:00:00"
                               Sample.full_body]
                  {| tables := Sample.ledger; study_halls_seq := 3 |})).
  unfold keys_hold. cbn.
  repeat split; repeat constructor; cbn; try lia; intuition discriminate.
Defined.

Lemma students_seq_step r st :
  students_seq (tables st) <= students_seq (tables (handle r st)).
Proof.
  destruct r; cbn [handle on_tables tables].
  - unfold post_students.
    destruct (truthy (req_name body)); [|cbn; lia].
    destruct (truthy (req_cabin body)); [|cbn; lia].
    destruct (truthy (req_hall body)); [|cbn; lia].
    destruct (truthy (req_phone body)); [|cbn; lia].
    cbn [negb fst students_seq].
    pose proof (StudentRoutes.next_student_id_fresh (tables st)). lia.
  - rewrite StudentRoutes.put_students_result.
    match goal with
    | |- context [if ?c then (tables st, Error 400 _) else _] => destruct c
    end; cbn; lia.
  - rewrite Halls.delete_students_result. cbn. lia.
  - rewrite Accrual.accrual_result. cbn. lia.
  - rewrite Lifecycle.leave_result. cbn. lia.
  - rewrite Lifecycle.reactivate_result. cbn. lia.
  - unfold post_study_halls. destruct (hall_fields_missing body); [cbn; lia|].
    destruct (existsb _ _); cbn; lia.
  - unfold put_study_halls. destruct (hall_fields_missing body); [cbn; lia|].
    destruct (rename_conflict _ _ _); [cbn; lia|].
    unfold sql_update. destruct (_ =? 0); cbn; lia.
  - unfold delete_study_halls. destruct (0 <? _); [cbn; lia|].
    unfold sql_delete. destruct (_ =? 0); cbn; lia.
Qed.

Lemma students_seq_steps rs st :
  students_seq (tables st) <= students_seq (tables (handle_all rs st)).
Proof.
  revert st. induction rs as [|r rs IH]; intros st;
    cbn [handle_all fold_left]; [lia|].
  pose proof (students_seq_step r st).
  specialize (IH (handle r st)). unfold handle_all in IH. lia.
Qed.

(** X20.  The id of a student is never handed out again: an id that a
    creation replied with is below the id of every later creation,
    whatever requests come in between, the deletion of that student
    included. *)
Theorem student_ids_not_reused today now body st db1 i requests
    today' now' body' db3 j :
  post_students today now body (tables st) = (db1, Json i) ->
  post_students today' now' body'
                (tables (handle_all requests (on_tables st db1)))
  = (db3, Json j) ->
  i < j.
Proof.
  intros Hfirst Hlater.
  destruct (StudentRoutes.post_students_inv _ _ _ _ _ _ Hfirst)
    as (A1 & A2 & A3 & A4).
  rewrite (StudentRoutes.post_students_accepted _ _ _ _ A1 A2 A3 A4)
    in Hfirst.
  cbv zeta in Hfirst. injection Hfirst as <- <-.
  destruct (StudentRoutes.post_students_inv _ _ _ _ _ _ Hlater)
    as (B1 & B2 & B3 & B4).
  rewrite (StudentRoutes.post_students_accepted _ _ _ _ B1 B2 B3 B4)
    in Hlater.
  cbv zeta in Hlater. injection Hlater as _ <-.
  match goal with
  | |- _ < next_student_id (tables (handle_all requests ?s)) =>
      pose proof (students_seq_steps requests s) as Hmono;
      pose proof (StudentRoutes.next_student_id_fresh
                    (tables (handle_all requests s))) as [Hnext _]
  end.
  cbn [on_tables tables students_seq] in Hmono. lia.
Qed.

Lemma student_ids_not_reused_witness : 5 < 6.
Proof.
  apply (student_ids_not_reused "2024-02-02" "2024-02-02 10:00:00"
           Sample.full_body
           {| tables := Sample.ledger; study_halls_seq := 3 |}
           (fst (post_students "2024-02-02" "2024-02-02 10:00:00"
                   Sample.full_body Sample.ledger)) 5
           [DeleteStudent 5]
           "2024-02-03" "2024-02-03 10:00:00" Sample.bare_body
           (fst (post_students "2024-02-03" "2024-02-03 10:00:00"
                   Sample.bare_body
                   (fst (delete_students 5
                           (fst (post_students "2024-02-02"
                                   "2024-02-02 10:00:00" Sample.full_body
                                   Sample.ledger)))))) 6);
    reflexivity.
Defined.

End Keys.

(** ** What every row of [students] keeps *)

Module Rows.
Import JS SQLite Server Spec SqlFacts Routes.

Lemma in_update {R : Type} (w : R -> bool) (g : R -> R) rows r' :
  In r' (map (fun r => if w r then g r else r) rows) ->
  In r' rows \/ exists r, In r rows /\ w r = true /\ r' = g r.
Proof.
  intros H. apply in_map_iff in H. destruct H as (r & E & Hr).
  destruct (w r) eqn:Ew.
  - right. exists r. auto.
  - left. subst r'. exact Hr.
Qed.

(** Where the rows of [students] come from after a request: a row is a
    row of before, or the row a creation appends, or a row of before
    rewritten by an edit, by the accrual or by one of the two lifecycle
    handlers. *)
Lemma rows_after r st s' :
  In s' (students (tables (handle r st))) ->
  In s' (students (tables st)) \/
  (exists today now body,
     r = PostStudent today now body /\ left_date s' = None /\
     status s' = status_of (feeDue body) /\
     fee_due s' = parseInt_or_0 (feeDue body)) \/
  (exists s, In s (students (tables st)) /\
     ((exists sid body, r = PutStudent sid body /\ s' = set_student body s) \/
      (exists D, r = CalculateMonthly D /\ accrual_where D s = true /\
                 s' = accrual_set D s) \/
      (exists today sid d, r = Leave today sid d /\
                           s' = set_left_date (Some (or_else d today)) s) \/
      (exists sid, r = Reactivate sid /\ s' = set_left_date None s))).
Proof.
  destruct r; cbn [handle on_tables tables]; intros H.
  - unfold post_students in H.
    destruct (truthy (req_name body)); [|left; exact H].
    destruct (truthy (req_cabin body)); [|left; exact H].
    destruct (truthy (req_hall body)); [|left; exact H].
    destruct (truthy (req_phone body)); [|left; exact H].
    cbn [negb fst students] in H. apply in_app_or in H.
    destruct H as [H|[<-|[]]]; [left; exact H|].
    right. left. exists today, now, body. cbn. auto.
  - rewrite StudentRoutes.put_students_result in H.
    match type of H with
    | context [if ?c then (tables st, Error 400 _) else _] => destruct c
    end; [left; exact H|].
    cbn [fst with_students students] in H. apply in_update in H.
    destruct H as [H|(s & Hs & _ & ->)]; [left; exact H|].
    right. right. exists s. split; [exact Hs|]. left. eauto.
  - rewrite Halls.delete_students_result in H.
    cbn [fst with_students students] in H. apply filter_In in H.
    left. tauto.
  - rewrite Accrual.accrual_result in H.
    cbn [fst with_students students] in H. apply in_update in H.
    destruct H as [H|(s & Hs & Hw & ->)]; [left; exact H|].
    right. right. exists s. split; [exact Hs|]. right. left. eauto.
  - rewrite Lifecycle.leave_result in H. cbn [fst] in H.
    unfold update_left_date in H. cbn [with_students students] in H.
    apply in_update in H.
    destruct H as [H|(s & Hs & _ & ->)]; [left; exact H|].
    right. right. exists s. split; [exact Hs|]. right. right. left. eauto.
  - rewrite Lifecycle.reactivate_result in H. cbn [fst] in H.
    unfold update_left_date in H. cbn [with_students students] in H.
    apply in_update in H.
    destruct H as [H|(s & Hs & _ & ->)]; [left; exact H|].
    right. right. exists s. split; [exact Hs|]. right. right. right. eauto.
  - left. unfold post_study_halls in H.
    destruct (hall_fields_missing body); [exact H|].
    destruct (existsb _ _); exact H.
  - left. unfold put_study_halls in H.
    destruct (hall_fields_missing body); [exact H|].
    destruct (rename_conflict _ _ _); [exact H|].
    unfold sql_update in H. destruct (_ =? 0); exact H.
  - left. unfold delete_study_halls in H.
    destruct (0 <? _); [exact H|].
    unfold sql_delete in H. destruct (_ =? 0); exact H.
Qed.

Lemma or_else_not_empty d today :
  today <> ""%string -> or_else d today <> ""%string.
Proof.
  intros Ht. unfold or_else. destruct d as [given|]; [|exact Ht].
  destruct (String.eqb_spec given ""); assumption.
Qed.

Lemma or_null_not_empty d : or_null d <> Some ""%string.
Proof.
  unfold or_null. destruct d as [given|]; [|discriminate].
  destruct (String.eqb_spec given "") as [E|E]; [discriminate|].
  intros H. injection H as H. exact (E H).
Qed.

Lemma dashboard_active_null s :
  left_date_set_or_null s -> dashboard_active s = is_null (left_date s).
Proof.
  unfold left_date_set_or_null, dashboard_active.
  destruct (left_date s) as [d|]; [|reflexivity].
  intros H. cbn [is_null text_eq sql_or holds].
  destruct (String.eqb_spec d "") as [E|E]; [|reflexivity].
  exfalso. apply H. rewrite E. reflexivity.
Qed.

(** X23.  No handler stores the empty text as a departure date: when no
    row has one, no row has one after any sequence of requests, and none
    has one in a database that started empty.  On such a database the
    dashboard and the accrual agree on who is active: the dashboard counts
    the students whose departure date is NULL. *)
Theorem left_date_never_empty requests st :
  Forall dated requests ->
  (Forall left_date_set_or_null (students (tables st)) ->
   Forall left_date_set_or_null
          (students (tables (handle_all requests st))) /\
   activeStudents (dashboard (tables (handle_all requests st)))
   = sql_count (fun s => is_null (left_date s))
               (students (tables (handle_all requests st)))) /\
  Forall left_date_set_or_null
         (students (tables (handle_all requests fresh))).
Proof.
  intros Hdated.
  assert (Hstep : forall r st0, dated r ->
            Forall left_date_set_or_null (students (tables st0)) ->
            Forall left_date_set_or_null
                   (students (tables (handle r st0)))).
  { intros r st0 Hr Hinv. rewrite Forall_forall in *. intros s' Hs'.
    apply rows_after in Hs'.
    destruct Hs' as [Hold|[(today & now & body & _ & Hl & _)
                          |(s & Hs & Hcase)]].
    - apply Hinv. exact Hold.
    - unfold left_date_set_or_null. rewrite Hl. discriminate.
    - specialize (Hinv s Hs). unfold left_date_set_or_null in *.
      destruct Hcase as [(sid & body & _ & ->)
                        |[(D & _ & _ & ->)
                         |[(today & sid & d & -> & ->)|(sid & _ & ->)]]];
        cbn [set_student accrual_set set_left_date left_date].
      + apply or_null_not_empty.
      + exact Hinv.
      + cbn [dated] in Hr. intros H. injection H as H.
        exact (or_else_not_empty d today Hr H).
      + discriminate. }
  assert (Hall : forall st0,
            Forall left_date_set_or_null (students (tables st0)) ->
            Forall left_date_set_or_null
                   (students (tables (handle_all requests st0)))).
  { induction Hdated as [|r rs Hr _ IH]; intros st0 Hinv; [exact Hinv|].
    cbn [handle_all fold_left]. apply IH. apply Hstep; assumption. }
  split; [|apply Hall; constructor].
  intros Hinv. specialize (Hall st Hinv). split; [exact Hall|].
  unfold dashboard. cbn [activeStudents]. unfold sql_count. do 2 f_equal.
  rewrite Forall_forall in Hall.
  induction (students (tables (handle_all requests st))) as [|s rows IH];
    [reflexivity|].
  cbn [filter]. rewrite dashboard_active_null by (apply Hall; left;
                                                   reflexivity).
  rewrite IH by (intros x Hx; apply Hall; right; exact Hx). reflexivity.
Qed.

Lemma left_date_never_empty_witness :
  Forall left_date_set_or_null
    (students (tables (handle_all
                         [Leave "2024-02-02" 1 (Some ""%string);
                          PutStudent 4 Sample.full_body]
                         {| tables :=
                              with_students Sample.ledger
                                [Sample.asha; Sample.ben; Sample.dev];
                            study_halls_seq := 3 |}))).
Proof.
  apply (proj1 (left_date_never_empty
                  [Leave "2024-02-02" 1 (Some ""%string);
                   PutStudent 4 Sample.full_body]
                  {| tables :=
                       with_students Sample.ledger
                         [Sample.asha; Sample.ben; Sample.dev];
                     study_halls_seq := 3 |}
                  ltac:(repeat constructor; cbn; discriminate))).
  apply Forall_forall. intros s [<-|[<-|[<-|[]]]];
    unfold left_date_set_or_null; cbn; discriminate.
Defined.

Lemma status_of_sound v :
  (status_of v = "Paid"%string \/ status_of v = "Pending"%string) /\
  (status_of v = "Paid"%string -> parseInt_or_0 v = 0).
Proof.
  unfold status_of, parseInt_is_zero, parseInt_or_0.
  destruct (parseInt v) as [z|].
  - destruct (Z.eqb_spec z 0) as [E|E].
    + split; [left; reflexivity|]. intros _. exact E.
    + split; [right; reflexivity|]. intros H. discriminate H.
  - split; [right; reflexivity|]. intros H. discriminate H.
Qed.

(** X24.  The status of a student is always one of 'Paid' and
    'Pending', and a student with the status 'Paid' has a balance of
    zero: this holds after every request when it held before, and in
    every database that started empty.  (The converse does not hold: a
    balance of zero can carry the status 'Pending'.) *)
Theorem paid_students_owe_nothing requests st :
  (Forall paid_means_settled (students (tables st)) ->
   Forall paid_means_settled (students (tables (handle_all requests st)))) /\
  Forall paid_means_settled (students (tables (handle_all requests fresh))).
Proof.
  assert (Hstep : forall r st0,
            Forall paid_means_settled (students (tables st0)) ->
            Forall paid_means_settled (students (tables (handle r st0)))).
  { intros r st0 Hinv. rewrite Forall_forall in *. intros s' Hs'.
    apply rows_after in Hs'.
    destruct Hs' as [Hold|[(today & now & body & _ & _ & Hst & Hdue)
                          |(s & Hs & Hcase)]].
    - apply Hinv. exact Hold.
    - unfold paid_means_settled. rewrite Hst, Hdue. apply status_of_sound.
    - specialize (Hinv s Hs). unfold paid_means_settled in *.
      destruct Hinv as [Hlabel Hpaid].
      destruct Hcase as [(sid & body & _ & ->)
                        |[(D & _ & Hw & ->)
                         |[(today & sid & d & _ & ->)|(sid & _ & ->)]]];
        cbn [set_student accrual_set set_left_date status fee_due].
      + apply status_of_sound.
      + apply Accrual.accrual_where_true in Hw.
        destruct Hw as (_ & Hfee & _).
        replace (0 <? monthly_fee s) with true
          by (symmetry; apply Z.ltb_lt; exact Hfee).
        cbn [andb].
        destruct (Z.ltb_spec 0 (fee_due s + monthly_fee s)) as [Hpos|Hneg].
        * split; [right; reflexivity|]. intros H. discriminate H.
        * split; [exact Hlabel|]. intros H. specialize (Hpaid H). lia.
      + split; assumption.
      + split; assumption. }
  assert (Hall : forall rs st0,
            Forall paid_means_settled (students (tables st0)) ->
            Forall paid_means_settled
                   (students (tables (handle_all rs st0)))).
  { induction rs as [|r rs IH]; intros st0 Hinv; [exact Hinv|].
    cbn [handle_all fold_left]. apply IH. apply Hstep. exact Hinv. }
  split; [apply Hall|]. apply Hall. constructor.
Qed.

Lemma paid_students_owe_nothing_witness :
  Forall paid_means_settled
    (students (tables (handle_all
                         [CalculateMonthly "2024-02-02";
                          PostStudent "2024-02-03" "2024-02-03 09:00:00"
                                      Sample.bare_body]
                         {| tables := Sample.ledger;
                            study_halls_seq := 3 |}))).
Proof.
  apply (proj1 (paid_students_owe_nothing
                  [CalculateMonthly "2024-02-02";
                   PostStudent "2024-02-03" "2024-02-03 09:00:00"
                               Sample.bare_body]
                  {| tables := Sample.ledger; study_halls_seq := 3 |})).
  apply Forall_forall. intros s [<-|[<-|[<-|[<-|[]]]]];
    unfold paid_means_settled; cbn;
    (split; [auto|intros H; first [discriminate H|reflexivity]]).
Defined.

End Rows.

(** ** Amounts sent as text *)

Module Amounts.
Import JS SQLite Server Spec SqlFacts Routes.

Lemma parse_digits_acc d acc :
  parse_digits 10 (Z.pos acc) (NilEmpty.string_of_uint d)
  = Z.pos (Pos.of_uint_acc d acc).
Proof.
  revert acc. induction d; intros acc;
    cbn [NilEmpty.string_of_uint Pos.of_uint_acc parse_digits];
    try reflexivity;
    match goal with
    | |- context [digit_value 10 ?c] =>
        let v := eval vm_compute in (digit_value 10 c) in
        change (digit_value 10 c) with v
    end;
    cbv beta iota;
    match goal with
    | |- parse_digits 10 ?a _ = Z.pos (Pos.of_uint_acc _ ?b) =>
        replace a with (Z.pos b) by lia
    end;
    apply IHd.
Qed.

Lemma parse_digits_uint d :
  parse_digits 10 0 (NilEmpty.string_of_uint d) = Z.of_N (Pos.of_uint d).
Proof.
  induction d;
    cbn [NilEmpty.string_of_uint Pos.of_uint parse_digits];
    try reflexivity;
    match goal with
    | |- context [digit_value 10 ?c] =>
        let v := eval vm_compute in (digit_value 10 c) in
        change (digit_value 10 c) with v
    end;
    cbv beta iota; cbn [Z.mul Z.add Z.of_N];
    first [exact IHd | apply parse_digits_acc].
Qed.

(** A run of decimal digits has no white space, sign or radix prefix in
    front, and starts with a digit. *)
Lemma digits_plain d :
  d <> Decimal.Nil ->
  skip_spaces (NilEmpty.string_of_uint d) = NilEmpty.string_of_uint d /\
  strip_sign (NilEmpty.string_of_uint d)
  = (1, NilEmpty.string_of_uint d) /\
  strip_radix (NilEmpty.string_of_uint d)
  = (10, NilEmpty.string_of_uint d) /\
  exists c rest v, NilEmpty.string_of_uint d = String c rest /\
                   digit_value 10 c = Some v.
Proof.
  intros Hd. destruct d as [|d|d|d|d|d|d|d|d|d|d]; [congruence| ..];
    (split; [destruct d as [|d|d|d|d|d|d|d|d|d|d]; try reflexivity;
             destruct d; reflexivity|]);
    (split; [reflexivity|]);
    (split; [destruct d; reflexivity|]);
    cbn [NilEmpty.string_of_uint]; do 3 eexists;
    (split; [reflexivity|]); vm_compute; reflexivity.
Qed.

Lemma parseInt_digits d :
  d <> Decimal.Nil ->
  parseInt_string (NilEmpty.string_of_uint d)
  = Some (to_double (Z.of_N (Pos.of_uint d))).
Proof.
  intros Hd. destruct (digits_plain d Hd) as (H1 & H2 & H3 & c & rest & v & Hs & Hv).
  unfold parseInt_string. rewrite H1, H2, H3.
  rewrite <- (parse_digits_uint d). rewrite Hs at 1. rewrite Hv.
  rewrite Z.mul_1_l. reflexivity.
Qed.

Lemma skip_spaces_minus s :
  skip_spaces (String "-" s) = String "-" s.
Proof. destruct s as [|c2 [|c3 r]]; reflexivity. Qed.

Lemma parseInt_minus_digits d :
  d <> Decimal.Nil ->
  parseInt_string (String "-" (NilEmpty.string_of_uint d))
  = Some (to_double (- Z.of_N (Pos.of_uint d))).
Proof.
  intros Hd.
  destruct (digits_plain d Hd) as (_ & _ & H3 & c & rest & v & Hs & Hv).
  unfold parseInt_string.
  rewrite skip_spaces_minus.
  replace (strip_sign (String "-" (NilEmpty.string_of_uint d)))
    with (-1, NilEmpty.string_of_uint d) by reflexivity.
  rewrite H3. rewrite <- (parse_digits_uint d). rewrite Hs at 1.
  rewrite Hv. do 2 f_equal; lia.
Qed.

Lemma string_of_uint_nonnil d :
  d <> Decimal.Nil ->
  NilZero.string_of_uint d = NilEmpty.string_of_uint d.
Proof. destruct d; [congruence|reflexivity ..]. Qed.

(** [parseInt] reads the decimal notation of an integer as the Number
    nearest to it. *)
Lemma parseInt_decimal z :
  parseInt (JStr (string_of_Z z)) = Some (to_double z).
Proof.
  unfold parseInt, string_of_Z. destruct z as [|p|p];
    cbn [Z.to_int NilZero.string_of_int].
  - reflexivity.
  - pose proof (DecimalPos.Unsigned.to_uint_nonnil p) as Hn.
    rewrite string_of_uint_nonnil, parseInt_digits by exact Hn.
    rewrite DecimalPos.Unsigned.of_to. reflexivity.
  - pose proof (DecimalPos.Unsigned.to_uint_nonnil p) as Hn.
    rewrite string_of_uint_nonnil, parseInt_minus_digits by exact Hn.
    rewrite DecimalPos.Unsigned.of_to. reflexivity.
Qed.

(** X21.  An amount that comes as a decimal text, as a form sends it,
    is stored as the number it denotes when a Number holds that integer
    (up to 2^53 in absolute value): a student created with such a
    balance is read back with that balance, and with the status 'Paid'
    exactly when the number is 0. *)
Theorem decimal_balance_stored today now body db db' i z :
  Z.abs z <= 2 ^ 53 ->
  feeDue body = JStr (string_of_Z z) ->
  post_students today now body db = (db', Json i) ->
  exists row,
    get_student i db' = Json row /\
    fee_due row = z /\
    (status row = "Paid"%string <-> z = 0) /\
    (status row = "Pending"%string <-> z <> 0).
Proof.
  intros Hz Hdue H.
  destruct (StudentRoutes.post_students_inv _ _ _ _ _ _ H)
    as (H1 & H2 & H3 & H4).
  rewrite (StudentRoutes.post_students_accepted today now body db
             H1 H2 H3 H4) in H.
  cbv zeta in H. injection H as <- <-.
  eexists. split.
  { unfold get_student. cbn [students].
    erewrite StudentRoutes.find_fresh_last;
      [reflexivity|reflexivity|apply StudentRoutes.next_student_id_fresh]. }
  cbn [fee_due status]. unfold parseInt_or_0, status_of, parseInt_is_zero.
  rewrite Hdue, parseInt_decimal, (Numbers.to_double_safe z Hz).
  split; [reflexivity|].
  destruct (Z.eqb_spec z 0) as [E|E]; split; split; intros H;
    try reflexivity; try assumption; try discriminate H; contradiction.
Qed.

Lemma decimal_balance_stored_witness :
  Z.abs 250 <= 2 ^ 53 /\
  exists row,
    get_student 5
      (fst (post_students "2024-02-02" "2024-02-02 10:00:00"
              Sample.full_body Sample.ledger)) = Json row /\
    fee_due row = 250.
Proof.
  assert (Hz : Z.abs 250 <= 2 ^ 53) by (vm_compute; discriminate).
  split; [exact Hz|].
  destruct (decimal_balance_stored "2024-02-02" "2024-02-02 10:00:00"
              Sample.full_body Sample.ledger _ 5 250 Hz eq_refl eq_refl)
    as (row & Hget & Hdue & _).
  exists row. split; [exact Hget|exact Hdue].
Defined.

(** Beyond 2^53 the text is read as the nearest Number: 2^53 + 1 is stored
    as 2^53. *)
Example decimal_balance_rounded :
  parseInt_or_0 (JStr "9007199254740993") = 9007199254740992 /\
  parseInt_or_0 (JStr "9007199254740995") = 9007199254740996.
Proof. split; vm_compute; reflexivity. Qed.

End Amounts.
